(** * calibre-rest: the calibredb command-line wrapper

    A shallow embedding of [calibre_rest/calibre.py] (class [CalibreWrapper]
    and the module functions [join_list], [quote], [validate_id]).

    - Python [str] values are [string]s; a character is a code point below
      256.
    - The wrapper's mutable state (the mutex, the log records, the calls made
      to the external tool) is threaded through a state-and-exception monad
      [M]; a [finally] block is the combinator [try_finally].
    - What lives outside the repository (the external process, the file
      system, [shlex.split], [json.loads], the [Book] constructor) is a
      variable of the section [Wrapper]. *)

From Stdlib Require Import ZArith List String Ascii Bool Lia DecimalString.
Import ListNotations.
Open Scope string_scope.
Set Warnings "-notation-for-abbreviation".

(** ** Python string primitives *)

Module PyStr.

Definition nl : string := String "010" EmptyString.
Definition dquote : string := String "034" EmptyString.
Definition squote : string := "'".

(** [str.isspace] on the code points below 256: TAB..CR, FS..US, SPACE,
    NEL and NBSP.  This is the set [str.strip()] removes. *)
Definition is_space (c : ascii) : bool :=
  let n := nat_of_ascii c in
  ((9 <=? n) && (n <=? 13) || (28 <=? n) && (n <=? 32)
   || (n =? 133) || (n =? 160))%nat.

(** [c in chars] for a one-character [c]. *)
Fixpoint mem_char (c : ascii) (chars : string) : bool :=
  match chars with
  | EmptyString => false
  | String d rest => Ascii.eqb c d || mem_char c rest
  end.

Fixpoint lstrip_by (p : ascii -> bool) (s : string) : string :=
  match s with
  | EmptyString => EmptyString
  | String c rest => if p c then lstrip_by p rest else s
  end.

Fixpoint rstrip_by (p : ascii -> bool) (s : string) : string :=
  match s with
  | EmptyString => EmptyString
  | String c rest =>
      match rstrip_by p rest with
      | EmptyString => if p c then EmptyString else String c EmptyString
      | r => String c r
      end
  end.

Definition strip_by (p : ascii -> bool) (s : string) : string :=
  rstrip_by p (lstrip_by p s).

(** [s.strip()] *)
Definition strip (s : string) : string := strip_by is_space s.

(** [s.strip(chars)] *)
Definition strip_chars (chars s : string) : string :=
  strip_by (fun c => mem_char c chars) s.

(** [sub in s] *)
Fixpoint contains (sub s : string) : bool :=
  prefix sub s
  || match s with
     | EmptyString => false
     | String _ rest => contains sub rest
     end.

(** [sep.join(lst)] *)
Definition join (sep : string) (lst : list string) : string :=
  String.concat sep lst.

(** [s.split(sep)] for a non-empty [sep]: left to right, occurrences do
    not overlap.  [skip] counts the characters of a separator that are
    still to be passed over, [cur] is the piece being read. *)
Fixpoint split_go (sep : string) (skip : nat) (cur s : string)
  : list string :=
  match s with
  | EmptyString => [cur]
  | String c rest =>
      match skip with
      | S k => split_go sep k cur rest
      | O =>
          if prefix sep s
          then cur :: split_go sep (String.length sep - 1) EmptyString rest
          else split_go sep 0 (cur ++ String c EmptyString) rest
      end
  end.

Definition split (sep s : string) : list string := split_go sep 0 "" s.

(** [s.replace(old, new)] for a one-character [old]. *)
Fixpoint replace_char (old : ascii) (new s : string) : string :=
  match s with
  | EmptyString => EmptyString
  | String c rest =>
      (if Ascii.eqb c old then new else String c EmptyString)
      ++ replace_char old new rest
  end.

(** The longest prefix of [s] made of characters satisfying [p], and what
    follows it. *)
Fixpoint span (p : ascii -> bool) (s : string) : string * string :=
  match s with
  | EmptyString => (EmptyString, EmptyString)
  | String c rest =>
      if p c
      then let (a, b) := span p rest in (String c a, b)
      else (EmptyString, s)
  end.

(** [s] without its first [n] characters. *)
Fixpoint drop (n : nat) (s : string) : string :=
  match n, s with
  | O, _ => s
  | S _, EmptyString => EmptyString
  | S k, String _ rest => drop k rest
  end.

Fixpoint forallb_str (p : ascii -> bool) (s : string) : bool :=
  match s with
  | EmptyString => true
  | String c rest => p c && forallb_str p rest
  end.

(** [str(n)] for an [int]. *)
Definition str_int (n : Z) : string := NilZero.string_of_int (Z.to_int n).

Definition is_digit (c : ascii) : bool :=
  let n := nat_of_ascii c in ((48 <=? n) && (n <=? 57))%nat.

Definition in_range (lo hi c : ascii) : bool :=
  ((nat_of_ascii lo <=? nat_of_ascii c)
   && (nat_of_ascii c <=? nat_of_ascii hi))%nat.

End PyStr.

(** ** [shlex.quote] (Python standard library)

    [_find_unsafe = re.compile(r'[^\w@%+=:,./-]', re.ASCII).search] *)

Module Shlex.
Import PyStr.

Definition is_safe (c : ascii) : bool :=
  in_range "a" "z" c || in_range "A" "Z" c || is_digit c
  || mem_char c "_@%+=:,./-".

Definition quote (s : string) : string :=
  match s with
  | EmptyString => "''"
  | _ =>
      if forallb_str is_safe s then s
      else squote
           ++ replace_char "'" (squote ++ dquote ++ squote ++ dquote ++ squote) s
           ++ squote
  end.

End Shlex.

(** ** Module-level functions of calibre.py *)

(** [join_list(lst, sep)]: every element is stripped, then joined. *)
Definition join_list (lst : list string) (sep : string) : string :=
  let lst := map PyStr.strip lst in
  PyStr.join sep lst.

(** [quote(s)]: strip, then [shlex.quote] exactly when a space remains. *)
Definition quote (s : string) : string :=
  let s := PyStr.strip s in
  if PyStr.mem_char " " s then Shlex.quote s else s.

(** ** Exceptions and results *)

Inductive exn : Type :=
| ValueError (msg : string)
| FileNotFoundError (msg : string)
| AttributeError (msg : string)
| TypeError (msg : string)
| KeyError (msg : string)
| CalledProcessError (cmd : list string) (returncode : Z)
    (stdout stderr : string)
| CalibreConcurrencyError (cmd : list string) (returncode : Z)
| CalibreRuntimeError (cmd : list string) (returncode : Z)
    (stdout stderr : string)
| ExistingItemError (msg : string)
| Exception (msg : string)
| OtherError (name msg : string).

(** The result of a pure computation that may raise. *)
Inductive result (A : Type) : Type :=
| Ok (a : A)
| Err (e : exn).
Arguments Ok {A} a.
Arguments Err {A} e.

(** ** The book record *)

(** The attribute names read by the flag builders: the keys of [ADD_FLAGS]
    and the entries of [UPDATE_FLAGS]. *)
Inductive attr : Type :=
| author_sort | authors | comments | cover | id | identifiers | isbn
| languages | pubdate | publisher | rating | series | series_index | size
| tags | timestamp | title.

Definition attr_eq_dec (a b : attr) : {a = b} + {a <> b}.
Proof. decide equality. Defined.

Definition attr_eqb (a b : attr) : bool :=
  if attr_eq_dec a b then true else false.

Definition attr_name (a : attr) : string :=
  match a with
  | author_sort => "author_sort" | authors => "authors"
  | comments => "comments" | cover => "cover" | id => "id"
  | identifiers => "identifiers" | isbn => "isbn"
  | languages => "languages" | pubdate => "pubdate"
  | publisher => "publisher" | rating => "rating" | series => "series"
  | series_index => "series_index" | size => "size" | tags => "tags"
  | timestamp => "timestamp" | title => "title"
  end.

(** Modelled from the spec: the values a [calibre_rest.models.Book]
    attribute holds ([models.py] is not part of the sources).  The spec's
    BookRecord has text fields, numeric fields, sequences of strings and one
    scheme-to-value mapping, all optional.  A float is kept as the two things
    the builders observe of it: its truth value and its [str()]. *)
Inductive value : Type :=
| VNone
| VStr (s : string)
| VInt (n : Z)
| VFloat (nonzero : bool) (repr : string)
| VList (l : list string)
| VDict (d : list (string * string)).

(** Modelled from the spec: a [calibre_rest.models.Book] instance, as the
    builders see it through [getattr]. *)
Definition Book : Type := attr -> value.

Definition getattr (book : Book) (a : attr) : value := book a.

(** [Book()] with every field unset. *)
Definition Book_unset : Book := fun _ => VNone.

(** [dataclasses.replace(book, a=v)] *)
Definition Book_with (book : Book) (a : attr) (v : value) : Book :=
  fun b => if attr_eqb b a then v else book b.

(** Python truth value: [if value:]. *)
Definition truthy (v : value) : bool :=
  match v with
  | VNone => false
  | VStr s => negb (String.eqb s "")
  | VInt n => negb (Z.eqb n 0)
  | VFloat nonzero _ => nonzero
  | VList l => match l with [] => false | _ => true end
  | VDict d => match d with [] => false | _ => true end
  end.

(** The name Python prints for the type of a value, as in the message of an
    [AttributeError]. *)
Definition type_name (v : value) : string :=
  match v with
  | VNone => "NoneType" | VStr _ => "str" | VInt _ => "int"
  | VFloat _ _ => "float" | VList _ => "list" | VDict _ => "dict"
  end.

(** ** Class constants *)

Definition ADD_FLAGS : list (attr * string) :=
  [ (authors, "authors"); (cover, "cover"); (identifiers, "identifier");
    (isbn, "isbn"); (languages, "languages"); (series, "series");
    (series_index, "series-index"); (tags, "tags"); (title, "title") ].

Definition UPDATE_FLAGS : list attr :=
  [ author_sort; authors; comments; id; identifiers; languages; pubdate;
    publisher; rating; series; series_index; size; tags; timestamp; title ].

Definition AUTOMERGE_VALID_VALUES : list string :=
  [ "overwrite"; "new_record"; "ignore" ].

(** [x in lst] for a list of strings. *)
Definition in_list (x : string) (lst : list string) : bool :=
  existsb (String.eqb x) lst.

(** *** The compiled patterns

    Every pattern starts with [^] and is used with [re.search] without
    [re.MULTILINE], so a match can only start at the first character.  Each
    is written as the recogniser of its own shape; a match is returned as
    the text of group 1 where the pattern has one. *)

(** [^<lit>([<class>]+)]: the literal, then the longest non-empty run of
    characters of the class (the [+] is greedy and nothing follows it). *)
Definition search_lit_class (lit : string) (cls : ascii -> bool) (s : string)
  : option string :=
  if prefix lit s then
    match fst (PyStr.span cls (PyStr.drop (String.length lit) s)) with
    | EmptyString => None
    | g => Some g
    end
  else None.

(** [re.compile(r"^Added book ids: ([0-9,]+)")] *)
Definition BOOK_ADDED_REGEX (s : string) : option string :=
  search_lit_class "Added book ids: "
    (fun c => PyStr.is_digit c || Ascii.eqb c ",") s.

(** [re.compile(r"^Merged book ids: ([0-9, ]+)")] *)
Definition BOOK_MERGED_REGEX (s : string) : option string :=
  search_lit_class "Merged book ids: "
    (fun c => PyStr.is_digit c || Ascii.eqb c "," || Ascii.eqb c " ") s.

(** [re.compile(r"^The following books were not added as they already
    exist.*")]: the trailing [.*] matches the empty text, so the pattern
    matches exactly the strings that start with the literal. *)
Definition BOOK_IGNORED_REGEX (s : string) : bool :=
  prefix "The following books were not added as they already exist" s.

(** [re.compile(r"^Another calibre program.*is running.")]: a dot does not
    match a newline, so the whole match lies on the first line: after the
    literal, [is running] followed by one more character of that line. *)
Definition not_newline (c : ascii) : bool := negb (Ascii.eqb c "010").

Fixpoint is_running_dot (line : string) : bool :=
  match line with
  | EmptyString => false
  | String _ rest =>
      (prefix "is running" line
       && negb (String.eqb (PyStr.drop 10 line) EmptyString))
      || is_running_dot rest
  end.

Definition CONCURRENCY_ERR_REGEX (s : string) : bool :=
  prefix "Another calibre program" s
  && is_running_dot (fst (PyStr.span not_newline (PyStr.drop 23 s))).

(** [validate_id(id)] *)
Definition validate_id (id : Z) : result unit :=
  if (id <=? 0)%Z
  then Err (ValueError ("Value " ++ PyStr.str_int id ++ " cannot be <= 0"))
  else Ok tt.

(** ** The flag builders *)

Section Builders.

(** [str()] of a list or of a dict (their [repr]), left to the Python
    runtime. *)
Variable py_repr : value -> string.

(** [str(value)], also what an f-string prints for [{value}]. *)
Definition py_str (v : value) : string :=
  match v with
  | VNone => "None"
  | VStr s => s
  | VInt n => PyStr.str_int n
  | VFloat _ repr => repr
  | VList _ | VDict _ => py_repr v
  end.

(** [value.items()] raises for anything that is not a mapping. *)
Definition no_items (v : value) : exn :=
  AttributeError ("'" ++ type_name v ++ "' object has no attribute 'items'").

(** The [for flag in self.ADD_FLAGS.keys()] loop of [_handle_add_flags];
    the [break] of the identifiers branch ends the recursion. *)
Fixpoint add_flags_loop (flags : list (attr * string)) (book : Book)
  (cmd : string) : result string :=
  match flags with
  | [] => Ok cmd
  | (flag, flag_name) :: rest =>
      let value := getattr book flag in
      if truthy value then
        if attr_eqb flag identifiers then
          match value with
          | VDict d =>
              Ok (fold_left
                    (fun cmd kv =>
                       let identifier := fst kv ++ ":" ++ snd kv in
                       cmd ++ " --" ++ flag_name ++ " " ++ quote identifier)
                    d cmd)
          | _ => Err (no_items value)
          end
        else
          let value :=
            match value with
            | VList l =>
                if attr_eqb flag authors
                then VStr (join_list l " & ")
                else VStr (join_list l ",")
            | _ => value
            end in
          add_flags_loop rest book
            (cmd ++ " --" ++ flag_name ++ " " ++ quote (py_str value))
      else add_flags_loop rest book cmd
  end.

Definition _handle_add_flags (cmd : string) (book : option Book)
  : result string :=
  match book with
  | None => Ok cmd
  | Some book => add_flags_loop ADD_FLAGS book cmd
  end.

(** The [for field in self.UPDATE_FLAGS] loop of [_handle_update_flags]. *)
Fixpoint update_flags_loop (fields : list attr) (book : Book) (cmd : string)
  : result string :=
  match fields with
  | [] => Ok cmd
  | field :: rest =>
      let value := getattr book field in
      if truthy value then
        if attr_eqb field identifiers then
          match value with
          | VDict d =>
              let strs := map (fun kv => fst kv ++ ":" ++ snd kv) d in
              Ok (cmd ++ " --field " ++ attr_name field ++ ":"
                      ++ quote (join_list strs ","))
          | _ => Err (no_items value)
          end
        else
          let value :=
            match value with
            | VList l =>
                if attr_eqb field authors
                then VStr (join_list l " & ")
                else VStr (join_list l ",")
            | _ => value
            end in
          let value := quote (attr_name field ++ ":" ++ py_str value) in
          update_flags_loop rest book (cmd ++ " --field " ++ value)
      else update_flags_loop rest book cmd
  end.

Definition _handle_update_flags (cmd : string) (book : option Book)
  : result string :=
  match book with
  | None => Ok cmd
  | Some book => update_flags_loop UPDATE_FLAGS book cmd
  end.

End Builders.

(** ** JSON values, as [json.loads] returns them *)

#[warnings="-register-all"]
Inductive json : Type :=
| JNull
| JBool (b : bool)
| JInt (n : Z)
| JFloat (repr : string)
| JStr (s : string)
| JList (l : list json)
| JObj (members : list (string * json)).

(** [len(b)] *)
Definition py_len (b : json) : result nat :=
  match b with
  | JStr s => Ok (String.length s)
  | JList l => Ok (List.length l)
  | JObj members => Ok (List.length members)
  | JNull => Err (TypeError "object of type 'NoneType' has no len()")
  | JBool _ => Err (TypeError "object of type 'bool' has no len()")
  | JInt _ => Err (TypeError "object of type 'int' has no len()")
  | JFloat _ => Err (TypeError "object of type 'float' has no len()")
  end.

(** [b[0]] for a value with [len(b) == 1]. *)
Definition py_first (b : json) : result json :=
  match b with
  | JList (x :: _) => Ok x
  | JStr s => Ok (JStr s)
  | JObj _ => Err (KeyError "0")
  | _ => Err (TypeError "object is not subscriptable")
  end.

(** ** The wrapper *)

Inductive level : Type := DEBUG | INFO | WARNING | ERROR.

(** [self.logger] or the root logger of the [logging] module. *)
Inductive logger : Type := SelfLogger | RootLogger.

(** What one call of the wrapper does to the mutex and to the external
    tool, in the order it happens. *)
Inductive event : Type :=
| Acquire
| Release
| Subprocess (argv : list string).

(** What [subprocess.run(..., check=False)] would give: the process ran to
    its end, or it could not be run and an exception came out. *)
Inductive run_result : Type :=
| Exited (returncode : Z) (stdout stderr : string)
| Failed (e : exn).

(** How a call ends.  [Blocked]: the thread waits on the mutex and, with
    nobody to release it, never comes back. *)
Inductive outcome (A : Type) : Type :=
| Return (a : A)
| Raise (e : exn)
| Blocked.
Arguments Return {A} a.
Arguments Raise {A} e.
Arguments Blocked {A}.

Section Wrapper.

(** The world outside: the library on disk, the file system, the tool. *)
Variable World : Type.
Variable subprocess_run : World -> list string -> run_result * World.
Variable path_exists : World -> string -> bool.
(** [shlex.split]; it raises [ValueError] on an unbalanced quotation. *)
Variable shlex_split : string -> result (list string).
(** [json.loads]; [inr exc] is a [JSONDecodeError] with that text. *)
Variable json_loads : string -> json + string.
(** Modelled from the spec: the constructor of [calibre_rest.models.Book]
    called with keyword arguments ([models.py] is not part of the sources);
    it maps the members of a decoded record into the domain record shape,
    or raises. *)
Variable Book_init : list (string * json) -> result Book.
Variable py_repr : value -> string.

(** [self.cdb_with_lib], fixed by [__init__]. *)
Variable cdb_with_lib : string.

Record state : Type := mkState {
  mutex : bool;                              (* [self.mutex] is held *)
  records : list (logger * level * string);  (* log records, oldest first *)
  calls : list event;                        (* oldest first *)
  world : World
}.

Definition M (A : Type) : Type := state -> outcome A * state.

Definition ret {A} (a : A) : M A := fun st => (Return a, st).

Definition raise {A} (e : exn) : M A := fun st => (Raise e, st).

Definition bind {A B} (m : M A) (k : A -> M B) : M B :=
  fun st =>
    match m st with
    | (Return a, st') => k a st'
    | (Raise e, st') => (Raise e, st')
    | (Blocked, st') => (Blocked, st')
    end.

Notation "x <- m ;; k" := (bind m (fun x => k))
  (at level 61, m at next level, right associativity).
Notation "m ;;; k" := (bind m (fun _ => k))
  (at level 61, right associativity).

Definition lift {A} (r : result A) : M A :=
  match r with
  | Ok a => ret a
  | Err e => raise e
  end.

(** [try: body  except ...: handler]: [handler e] is [None] when no clause
    catches [e]. *)
Definition try_except {A} (body : M A) (handler : exn -> option (M A))
  : M A :=
  fun st =>
    match body st with
    | (Raise e, st') =>
        match handler e with
        | Some h => h st'
        | None => (Raise e, st')
        end
    | r => r
    end.

(** [try: body  finally: fin]: [fin] runs however [body] ends; what [body]
    returned or raised goes on afterwards, unless [fin] itself raises. *)
Definition try_finally {A} (body : M A) (fin : M unit) : M A :=
  fun st =>
    match body st with
    | (Blocked, st') => (Blocked, st')
    | (r, st') =>
        match fin st' with
        | (Return _, st'') => (r, st'')
        | (Raise e, st'') => (Raise e, st'')
        | (Blocked, st'') => (Blocked, st'')
        end
    end.

Definition log (lg : logger) (lv : level) (msg : string) : M unit :=
  fun st =>
    (Return tt,
     mkState (mutex st) (records st ++ [(lg, lv, msg)]) (calls st) (world st)).

Definition emit (e : event) (st : state) : state :=
  mkState (mutex st) (records st) (calls st ++ [e]) (world st).

(** [self.mutex.acquire()] *)
Definition mutex_acquire : M unit :=
  fun st =>
    if mutex st then (Blocked, st)
    else (Return tt,
          emit Acquire (mkState true (records st) (calls st) (world st))).

(** [self.mutex.release()] *)
Definition mutex_release : M unit :=
  fun st =>
    if mutex st
    then (Return tt,
          emit Release (mkState false (records st) (calls st) (world st)))
    else (Raise (OtherError "RuntimeError" "release unlocked lock"), st).

(** [subprocess.run(argv, capture_output=True, check=True, ...)]: with
    [check=True] an exit status other than zero raises
    [CalledProcessError]. *)
Definition run_checked (argv : list string) : M (string * string) :=
  fun st =>
    let (r, w) := subprocess_run (world st) argv in
    let st' :=
      emit (Subprocess argv) (mkState (mutex st) (records st) (calls st) w) in
    match r with
    | Exited rc out err =>
        if (rc =? 0)%Z then (Return (out, err), st')
        else (Raise (CalledProcessError argv rc out err), st')
    | Failed e => (Raise e, st')
    end.

(** [_run(cmd)] *)
Definition _run (cmd : string) : M (string * string) :=
  log SelfLogger DEBUG
    ("Running " ++ PyStr.dquote ++ cmd ++ PyStr.dquote) ;;;
  process <-
    try_finally
      (try_except
         (mutex_acquire ;;;
          argv <- lift (shlex_split cmd) ;;
          run_checked argv)
         (fun e =>
            match e with
            | FileNotFoundError err =>
                Some (raise (FileNotFoundError
                               ("Executable could not be found."
                                  ++ PyStr.nl ++ PyStr.nl ++ err)))
            | CalledProcessError e_cmd e_returncode e_stdout e_stderr =>
                Some (if CONCURRENCY_ERR_REGEX e_stderr
                      then raise (CalibreConcurrencyError e_cmd e_returncode)
                      else raise (CalibreRuntimeError e_cmd e_returncode
                                    e_stdout e_stderr))
            | _ => None
            end))
      mutex_release ;;
  (if negb (String.eqb (snd process) "")
   then log SelfLogger WARNING (snd process)
   else ret tt) ;;;
  ret process.

(** [path.exists(p)] *)
Definition os_path_exists (p : string) : M bool :=
  fun st => (Return (path_exists (world st) p), st).

(** Keyword-argument call of [Book]: the argument after the two stars must
    be a mapping. *)
Definition Book_kwargs (x : json) : result Book :=
  match x with
  | JObj members => Book_init members
  | _ => Err (TypeError "argument after ** must be a mapping")
  end.

(** [get_book(id)]; the result [None] is Python's [None]. *)
Definition get_book (id : Z) : M (option Book) :=
  lift (validate_id id) ;;;
  let cmd :=
    cdb_with_lib ++ " list "
      ++ "--for-machine --fields=all "
      ++ "--search=id:" ++ PyStr.str_int id ++ " --limit=1" in
  process <- _run cmd ;;
  let out := fst process in
  match json_loads out with
  | inr exc =>
      log SelfLogger ERROR
        ("Error decoding JSON: " ++ exc ++ PyStr.nl ++ PyStr.nl ++ out) ;;;
      ret None
  | inl b =>
      n <- lift (py_len b) ;;
      if (n =? 1)%nat then
        b0 <- lift (py_first b) ;;
        book <- lift (Book_kwargs b0) ;;
        ret (Some book)
      else ret None
  end.

(** [_run_add(cmd, book, automerge)]; the ids come back as the pieces of the
    matched text. *)
Definition _run_add (cmd : string) (book : option Book) (automerge : string)
  : M (list string) :=
  cmd <-
    (if in_list automerge AUTOMERGE_VALID_VALUES
     then ret (cmd ++ " --automerge=" ++ automerge)
     else
       log RootLogger WARNING
         ("automerge value " ++ PyStr.dquote ++ automerge ++ PyStr.dquote
            ++ " not supported. "
            ++ "Using " ++ PyStr.dquote ++ "--automerge ignore"
            ++ PyStr.dquote ++ ".") ;;;
       ret (cmd ++ " --automerge=ignore")) ;;
  cmd <- lift (_handle_add_flags py_repr cmd book) ;;
  process <- _run cmd ;;
  let out := fst process in
  let stderr := snd process in
  let dump :=
    "COMMAND: " ++ cmd ++ PyStr.nl ++ PyStr.nl ++ "STDOUT:" ++ PyStr.nl
      ++ out ++ PyStr.nl ++ "STDERR:" ++ PyStr.nl ++ stderr in
  if BOOK_IGNORED_REGEX stderr then
    let out := PyStr.strip_chars (PyStr.nl ++ " ") out in
    log RootLogger INFO ("Books " ++ out ++ " already exist. Ignoring...") ;;;
    raise (ExistingItemError
             ("Book " ++ out
                ++ " already exists. Include automerge=overwrite to overwrite."))
  else
    match BOOK_MERGED_REGEX out with
    | Some book_ids_str =>
        let book_ids := PyStr.split ", " book_ids_str in
        if (List.length book_ids <? 1)%nat then
          log SelfLogger ERROR
            "No books were merged, something went wrong..." ;;;
          log SelfLogger ERROR dump ;;;
          raise (Exception "No books were merged, something went wrong...")
        else ret book_ids
    | None =>
        match BOOK_ADDED_REGEX out with
        | Some book_ids_str =>
            let book_ids := PyStr.split ", " book_ids_str in
            if (List.length book_ids <? 1)%nat then
              log SelfLogger ERROR
                "No books were added, something went wrong..." ;;;
              log SelfLogger ERROR dump ;;;
              raise (Exception "No books were added, something went wrong...")
            else ret book_ids
        | None =>
            log SelfLogger ERROR
              "Could not parse calibredb add output, something went wrong..." ;;;
            log SelfLogger ERROR dump ;;;
            raise (Exception
                     "Could not parse calibredb add output, something went wrong...")
        end
    end.

(** [add_one(book_path, book, automerge)] *)
Definition add_one (book_path : string) (book : option Book)
  (automerge : string) : M (list string) :=
  found <- os_path_exists book_path ;;
  if negb found
  then raise (FileNotFoundError ("Failed to find book at " ++ book_path))
  else
    let cmd := cdb_with_lib ++ " add " ++ book_path in
    _run_add cmd book automerge.

(** [add_one_empty(book, automerge)] *)
Definition add_one_empty (book : option Book) (automerge : string)
  : M (list string) :=
  let cmd := cdb_with_lib ++ " add --empty" in
  _run_add cmd book automerge.

(** [add_format(id, replace, data_file)] *)
Definition add_format (id : Z) (replace data_file : bool) : M string :=
  lift (validate_id id) ;;;
  let cmd := cdb_with_lib ++ " add_format " ++ PyStr.str_int id in
  let cmd := if replace then cmd ++ " --dont-replace" else cmd in
  let cmd := if data_file then cmd ++ " --as-extra-data-file" else cmd in
  process <- _run cmd ;;
  ret (fst process).

(** [remove_format(id, format)] *)
Definition remove_format (id : Z) (format : string) : M string :=
  lift (validate_id id) ;;;
  let cmd :=
    cdb_with_lib ++ " remove_format " ++ PyStr.str_int id ++ " " ++ format in
  process <- _run cmd ;;
  ret (fst process).

(** [show_metadata(id)] *)
Definition show_metadata (id : Z) : M string :=
  lift (validate_id id) ;;;
  let cmd := cdb_with_lib ++ " show_metadata --as-opf " ++ PyStr.str_int id in
  process <- _run cmd ;;
  ret (fst process).

(** [set_metadata(id, book, metadata_path)]; [if metadata_path:] is false for
    [None] and for the empty string. *)
Definition set_metadata (id : Z) (book : option Book)
  (metadata_path : option string) : M Z :=
  lift (validate_id id) ;;;
  existing <- get_book id ;;
  match existing with
  | None => ret (-1)%Z
  | Some _ =>
      let cmd := cdb_with_lib ++ " set_metadata " ++ PyStr.str_int id in
      cmd <-
        match metadata_path, book with
        | Some (String c p), _ =>
            let metadata_path := String c p in
            found <- os_path_exists metadata_path ;;
            if negb found
            then raise (FileNotFoundError
                          ("Metadata file " ++ metadata_path
                             ++ " does not exist"))
            else ret (cmd ++ " " ++ metadata_path)
        | _, Some book => lift (_handle_update_flags py_repr cmd (Some book))
        | _, None => raise (ValueError "No metadata given for update")
        end ;;
      _run cmd ;;;
      ret id
  end.

End Wrapper.

Arguments mkState {World} _ _ _ _.
Arguments mutex {World} _.
Arguments records {World} _.
Arguments calls {World} _.
Arguments world {World} _.
Arguments ret {World A} a _.
Arguments raise {World A} e _.
Arguments bind {World A B} m k _.
Arguments lift {World A} r _.
Arguments try_except {World A} body handler _.
Arguments try_finally {World A} body fin _.
Arguments log {World} lg lv msg _.
Arguments emit {World} e st.
Arguments mutex_acquire {World} _.
Arguments mutex_release {World} _.
Arguments run_checked {World} subprocess_run argv _.
Arguments _run {World} subprocess_run shlex_split cmd _.
Arguments os_path_exists {World} path_exists p _.
Arguments get_book {World} subprocess_run shlex_split json_loads Book_init
  cdb_with_lib id _.
Arguments _run_add {World} subprocess_run shlex_split py_repr cmd book
  automerge _.
Arguments add_one {World} subprocess_run path_exists shlex_split py_repr
  cdb_with_lib book_path book automerge _.
Arguments add_one_empty {World} subprocess_run shlex_split py_repr
  cdb_with_lib book automerge _.
Arguments add_format {World} subprocess_run shlex_split cdb_with_lib id
  replace data_file _.
Arguments remove_format {World} subprocess_run shlex_split cdb_with_lib id
  format _.
Arguments show_metadata {World} subprocess_run shlex_split cdb_with_lib id _.
Arguments set_metadata {World} subprocess_run path_exists shlex_split
  json_loads Book_init py_repr cdb_with_lib id book metadata_path _.

(** ** A scripted environment

    The tool's answers are read off a list, one per invocation; commands are
    cut at single spaces.  It is used to run the wrapper on concrete
    inputs. *)

Module Script.

Definition World : Type := list run_result.

Definition subprocess_run (w : World) (argv : list string)
  : run_result * World :=
  match w with
  | r :: w' => (r, w')
  | [] => (Failed (FileNotFoundError "[Errno 2] No such file or directory"), [])
  end.

Definition path_exists (w : World) (p : string) : bool := true.

Definition shlex_split (cmd : string) : result (list string) :=
  Ok (PyStr.split " " cmd).

Definition json_loads (s : string) : json + string :=
  if String.eqb s "[]" then inl (JList [])
  else if String.eqb s "[{}]" then inl (JList [JObj []])
  else inr "Expecting value: line 1 column 1 (char 0)".

Definition Book_init (members : list (string * json)) : result Book :=
  Ok Book_unset.

Definition py_repr (v : value) : string := "".

Definition cdb_with_lib : string := "calibredb --with-library /lib".

(** Sample records. *)
Definition book_two_identifiers : Book :=
  Book_with Book_unset identifiers (VDict [("isbn", "123"); ("x", "y")]).

Definition book_authors_tags : Book :=
  Book_with (Book_with Book_unset authors (VList ["A B"; " C "]))
    tags (VList ["x"; "y"]).

(** The tool reports ids as added and, on stderr, a conflict. *)
Definition conflict_answer : World :=
  [Exited 0 "Added book ids: 7"
     "The following books were not added as they already exist"].

(** A fresh wrapper in a world that will give the answers [w]. *)
Definition fresh (w : World) : state World := mkState false [] [] w.

Definition get_book := get_book subprocess_run shlex_split json_loads
                         Book_init cdb_with_lib.
Definition add_one_empty := add_one_empty subprocess_run shlex_split
                              py_repr cdb_with_lib.
Definition add_format := add_format subprocess_run shlex_split
                           cdb_with_lib.
Definition remove_format := remove_format subprocess_run shlex_split
                              cdb_with_lib.
Definition show_metadata := show_metadata subprocess_run shlex_split
                              cdb_with_lib.
Definition set_metadata := set_metadata subprocess_run path_exists
                             shlex_split json_loads Book_init py_repr
                             cdb_with_lib.

End Script.

(** ** Auxiliary definitions for the statements about [_run] *)

(** The exception that leaves [_run] when [e] is raised inside its [try]
    block: the two [except] clauses, any other exception unchanged. *)
Definition reraised (e : exn) : exn :=
  match e with
  | FileNotFoundError err =>
      FileNotFoundError
        ("Executable could not be found." ++ PyStr.nl ++ PyStr.nl ++ err)
  | CalledProcessError cmd rc out err =>
      if CONCURRENCY_ERR_REGEX err
      then CalibreConcurrencyError cmd rc
      else CalibreRuntimeError cmd rc out err
  | _ => e
  end.

(** The debug record [_run] writes first. *)
Definition running (cmd : string) : logger * level * string :=
  (SelfLogger, DEBUG, "Running " ++ PyStr.dquote ++ cmd ++ PyStr.dquote).

(** ** The rendering rules, in the words of the specification

    These definitions are not taken from the code: they say what a built
    command must look like, and the builders are compared with them. *)

(** Joining pieces of a command with nothing in between. *)
Definition flat (pieces : list string) : string :=
  fold_right String.append EmptyString pieces.

(** A value wrapped in shell quoting: single quotes around it, every single
    quote inside written as a closed quote, a quoted single quote and a
    reopened quote. *)
Definition shell_quoted (t : string) : string :=
  PyStr.squote
    ++ PyStr.replace_char "'"
         (PyStr.squote ++ PyStr.dquote ++ PyStr.squote ++ PyStr.dquote
            ++ PyStr.squote) t
    ++ PyStr.squote.

(** A value containing a space is shell-quoted; one without is passed as it
    is. *)
Definition as_argument (t : string) : string :=
  if PyStr.mem_char " " t then shell_quoted t else t.

(** The value of a field's flag: a list is joined, its elements trimmed
    first, the authors with [" & "] and any other list with a comma. *)
Definition flag_value (py_repr : value -> string) (a : attr) (v : value)
  : string :=
  match v with
  | VList l =>
      PyStr.join (if attr_eqb a authors then " & " else ",")
        (map PyStr.strip l)
  | _ => py_str py_repr v
  end.

(** The entries of the table whose field is populated, in table order. *)
Definition populated {X : Type} (key : X -> attr) (book : Book)
  (table : list X) : list X :=
  filter (fun x => truthy (getattr book (key x))) table.

(** The identifiers field is terminal: nothing is rendered after it. *)
Fixpoint through_identifiers {X : Type} (key : X -> attr) (entries : list X)
  : list X :=
  match entries with
  | [] => []
  | x :: rest =>
      if attr_eqb (key x) identifiers then [x]
      else x :: through_identifiers key rest
  end.

(** [key:value] for one entry of the identifiers mapping. *)
Definition entry (kv : string * string) : string := fst kv ++ ":" ++ snd kv.

(** What one populated field adds to an add command. *)
Definition add_segment (py_repr : value -> string) (book : Book)
  (f : attr * string) : string :=
  if attr_eqb (fst f) identifiers then
    match getattr book (fst f) with
    | VDict d =>
        flat (map (fun kv =>
                     " --" ++ snd f ++ " "
                       ++ as_argument (PyStr.strip (entry kv))) d)
    | _ => EmptyString
    end
  else
    " --" ++ snd f ++ " "
      ++ as_argument
           (PyStr.strip (flag_value py_repr (fst f) (getattr book (fst f)))).

(** What one populated field adds to a set_metadata command. *)
Definition update_segment (py_repr : value -> string) (book : Book)
  (a : attr) : string :=
  if attr_eqb a identifiers then
    match getattr book a with
    | VDict d =>
        " --field " ++ attr_name a ++ ":"
          ++ as_argument
               (PyStr.strip (PyStr.join "," (map PyStr.strip (map entry d))))
    | _ => EmptyString
    end
  else
    " --field "
      ++ as_argument
           (PyStr.strip
              (attr_name a ++ ":" ++ flag_value py_repr a (getattr book a))).

(** A record whose identifiers field, when populated, is a mapping. *)
Definition identifiers_is_mapping (book : Book) : Prop :=
  truthy (getattr book identifiers) = true ->
  exists d, getattr book identifiers = VDict d.

(** [suffix] is what is left of [s] after its first [n] characters. *)
Fixpoint endswith_at (n : nat) (suffix s : string) : bool :=
  match n with
  | O => String.eqb suffix s
  | S k =>
      match s with
      | EmptyString => false
      | String _ rest => endswith_at k suffix rest
      end
  end.

(** [s.endswith(suffix)] *)
Definition endswith (suffix s : string) : bool :=
  (String.length suffix <=? String.length s)%nat
  && endswith_at (String.length s - String.length suffix) suffix s.

(** [s.count(sub)] for a non-empty [sub], occurrences not overlapping. *)
Definition count (sub s : string) : nat :=
  List.length (PyStr.split sub s) - 1.


(** ** Auxiliary definitions for the statements about the operations *)

(** The command [get_book] runs. *)
Definition list_one_command (cdb_with_lib : string) (id : Z) : string :=
  cdb_with_lib ++ " list --for-machine --fields=all --search=id:"
    ++ PyStr.str_int id ++ " --limit=1".

(** The error [validate_id] raises. *)
Definition rejected_id (id : Z) : exn :=
  ValueError ("Value " ++ PyStr.str_int id ++ " cannot be <= 0").

(** What [add_format] appends to [self.cdb_with_lib]. *)
Definition add_format_arguments (id : Z) (replace data_file : bool) : string :=
  " add_format " ++ PyStr.str_int id
    ++ (if replace then " --dont-replace" else "")
    ++ (if data_file then " --as-extra-data-file" else "").

(** The automerge policy handed to the tool: the value given when it is one
    of the three valid ones, [ignore] otherwise. *)
Definition automerge_policy (automerge : string) : string :=
  if in_list automerge AUTOMERGE_VALID_VALUES then automerge else "ignore".

(** The warning written for an automerge value that is not valid. *)
Definition automerge_warning (automerge : string) : logger * level * string :=
  (RootLogger, WARNING,
   "automerge value " ++ PyStr.dquote ++ automerge ++ PyStr.dquote
     ++ " not supported. Using " ++ PyStr.dquote ++ "--automerge ignore"
     ++ PyStr.dquote ++ ".").

(** The error raised for a conflict; it carries the trimmed stdout. *)
Definition already_exists (out : string) : exn :=
  ExistingItemError
    ("Book " ++ PyStr.strip_chars (PyStr.nl ++ " ") out
       ++ " already exists. Include automerge=overwrite to overwrite.").

(** The error raised when no pattern matches. *)
Definition unparsed_output : exn :=
  Exception "Could not parse calibredb add output, something went wrong...".

(** ** The rest of the wrapper

    [version], [get_books] and [remove] of [CalibreWrapper], the file-name
    check [allowed_file] and the handler [delete_book] of [routes.py]. *)

(** [s.lower()] on the code points below 256: the letters A to Z and the
    capital letters of the Latin-1 block move 32 places up. *)
Definition lower_char (c : ascii) : ascii :=
  let n := nat_of_ascii c in
  if ((65 <=? n) && (n <=? 90)
      || (192 <=? n) && (n <=? 222) && negb (n =? 215))%nat
  then ascii_of_nat (n + 32)
  else c.

Fixpoint lower (s : string) : string :=
  match s with
  | EmptyString => EmptyString
  | String c rest => String (lower_char c) (lower rest)
  end.

Definition ALLOWED_FILE_EXTENSIONS : list string :=
  [ ".azw"; ".azw3"; ".azw4"; ".cbz"; ".cbr"; ".cb7"; ".cbc"; ".chm";
    ".djvu"; ".docx"; ".epub"; ".fb2"; ".fbz"; ".html"; ".htmlz"; ".lit";
    ".lrf"; ".mobi"; ".odt"; ".pdf"; ".prc"; ".pdb"; ".pml"; ".rb"; ".rtf";
    ".snb"; ".tcr"; ".txt"; ".txtz" ].

(** [allowed_file(filename)] of routes.py; [str.endswith] with a tuple is
    true when one of its members is a suffix. *)
Definition allowed_file (filename : string) : bool :=
  if prefix "-" filename then false
  else existsb (fun ext => endswith ext (lower filename))
         ALLOWED_FILE_EXTENSIONS.

(** [re.compile(r"calibre ([\d.]+)")] with [re.search]: the pattern is not
    anchored, so the leftmost place where it matches is taken; there the
    group is the longest run of digits and dots. *)
Fixpoint CALIBRE_VERSION_REGEX (s : string) : option string :=
  match search_lit_class "calibre "
          (fun c => PyStr.is_digit c || Ascii.eqb c ".") s with
  | Some g => Some g
  | None =>
      match s with
      | EmptyString => None
      | String _ rest => CALIBRE_VERSION_REGEX rest
      end
  end.

(** [str(ids)] for a list of ints. *)
Definition str_int_list (ids : list Z) : string :=
  "[" ++ PyStr.join ", " (map PyStr.str_int ids) ++ "]".

(** [for b in books], for the decoded values that can be iterated: a list
    gives its elements, a string its characters, an object its keys. *)
Definition py_iter (b : json) : result (list json) :=
  match b with
  | JList l => Ok l
  | JStr s =>
      Ok (map (fun c => JStr (String c EmptyString)) (list_ascii_of_string s))
  | JObj members => Ok (map (fun kv => JStr (fst kv)) members)
  | _ => Err (TypeError "object is not iterable")
  end.

(** A loop that appends [f x] for every [x], left to right, and ends at the
    first exception. *)
Fixpoint map_result {A B : Type} (f : A -> result B) (l : list A)
  : result (list B) :=
  match l with
  | [] => Ok []
  | x :: rest =>
      match f x with
      | Err e => Err e
      | Ok y =>
          match map_result f rest with
          | Err e => Err e
          | Ok ys => Ok (y :: ys)
          end
      end
  end.

(** [json.JSONDecodeError], raised by [json.loads]. *)
Definition JSONDecodeError (msg : string) : exn :=
  OtherError "JSONDecodeError" msg.

(** The exception [abort(code, description)] raises. *)
Definition HTTPException (code : Z) (description : string) : exn :=
  OtherError ("HTTPException " ++ PyStr.str_int code) description.

(** What [response(status_code, data)] builds, with its default headers. *)
Record Response : Type := mkResponse {
  status_code : Z;
  data : string;
  headers : list (string * string)
}.

Definition response (status_code : Z) (data : string) : Response :=
  mkResponse status_code data [("Content-Type", "application/json")].

Section WrapperRest.

Variable World : Type.
Variable subprocess_run : World -> list string -> run_result * World.
Variable shlex_split : string -> result (list string).
Variable json_loads : string -> json + string.
Variable Book_init : list (string * json) -> result Book.
(** The truth value of a [Book] instance ([models.py] is not part of the
    sources). *)
Variable Book_bool : Book -> bool.

(** [self.cdb] and [self.cdb_with_lib], fixed by [__init__]. *)
Variable cdb : string.
Variable cdb_with_lib : string.

Notation "x <- m ;; k" := (bind m (fun x => k))
  (at level 61, m at next level, right associativity).
Notation "m ;;; k" := (bind m (fun _ => k))
  (at level 61, right associativity).

(** [version()]; the result [None] is Python's [None]. *)
Definition version : M World (option string) :=
  let cmd := cdb ++ " --version" in
  process <- _run subprocess_run shlex_split cmd ;;
  let out := fst process in
  match CALIBRE_VERSION_REGEX out with
  | Some group1 => ret (Some group1)
  | None =>
      log SelfLogger ERROR "failed to parse calibredb version" ;;;
      ret None
  end.

(** [get_books(limit)] *)
Definition get_books (limit : Z) : M World (list Book) :=
  if (limit <=? 0)%Z
  then raise (ValueError ("limit " ++ PyStr.str_int limit ++ " not allowed"))
  else
    let cmd :=
      cdb_with_lib ++ " list "
        ++ "--for-machine --fields=all "
        ++ "--limit=" ++ PyStr.str_int limit in
    process <- _run subprocess_run shlex_split cmd ;;
    let out := fst process in
    match json_loads out with
    | inr exc => raise (JSONDecodeError exc)
    | inl books =>
        n <- lift (py_len books) ;;
        if negb (n =? 0)%nat then
          items <- lift (py_iter books) ;;
          lift (map_result (Book_kwargs Book_init) items)
        else ret []
    end.

(** [remove(ids, permanent)] *)
Definition remove (ids : list Z) (permanent : bool) : M World string :=
  if negb (forallb (fun i => (i >=? 0)%Z) ids)
  then raise (ValueError ("ids " ++ str_int_list ids ++ " not allowed"))
  else
    let cmd :=
      cdb_with_lib ++ " remove "
        ++ PyStr.join "," (map PyStr.str_int ids) in
    let cmd := if permanent then cmd ++ " --permanent" else cmd in
    process <- _run subprocess_run shlex_split cmd ;;
    ret (fst process).

(** [delete_book(id)] of routes.py, with [calibredb] the wrapper. *)
Definition delete_book (id : Z) : M World Response :=
  remove [id] false ;;;
  book <- get_book subprocess_run shlex_split json_loads Book_init
            cdb_with_lib id ;;
  if match book with
     | Some b => Book_bool b
     | None => false
     end
  then raise (HTTPException 500
                ("book " ++ PyStr.str_int id ++ " was not deleted"))
  else ret (response 200 "").

End WrapperRest.

Arguments version {World} subprocess_run shlex_split cdb _.
Arguments get_books {World} subprocess_run shlex_split json_loads Book_init
  cdb_with_lib limit _.
Arguments remove {World} subprocess_run shlex_split cdb_with_lib ids
  permanent _.
Arguments delete_book {World} subprocess_run shlex_split json_loads Book_init
  Book_bool cdb_with_lib id _.

(** The scripted environment for the rest of the wrapper. *)
Module ScriptRest.

Definition cdb : string := "calibredb".

Definition Book_bool (b : Book) : bool := true.

Definition version := version Script.subprocess_run Script.shlex_split cdb.
Definition get_books := get_books Script.subprocess_run Script.shlex_split
                          Script.json_loads Script.Book_init
                          Script.cdb_with_lib.
Definition remove := remove Script.subprocess_run Script.shlex_split
                       Script.cdb_with_lib.
Definition delete_book := delete_book Script.subprocess_run
                            Script.shlex_split Script.json_loads
                            Script.Book_init Book_bool Script.cdb_with_lib.

End ScriptRest.

(** ** Auxiliary definitions for the statements about the rest *)

(** The command [get_books] runs. *)
Definition list_command (cdb_with_lib : string) (limit : Z) : string :=
  cdb_with_lib ++ " list --for-machine --fields=all --limit="
    ++ PyStr.str_int limit.

(** The command [remove] runs. *)
Definition remove_command (cdb_with_lib : string) (ids : list Z)
  (permanent : bool) : string :=
  cdb_with_lib ++ " remove " ++ PyStr.join "," (map PyStr.str_int ids)
    ++ (if permanent then " --permanent" else "").

(** The characters of a version: digits and dots. *)
Definition version_char (c : ascii) : bool :=
  PyStr.is_digit c || Ascii.eqb c ".".


(** ** Claims in the form the specification gives them *)

(** The identifiers rule as the specification words it: the entries, each
    [key:value], are joined with a comma and emitted as one flag, which is
    the last thing of the command.  [flag] is the text that introduces the
    value. *)
Definition identifiers_in_one_flag
  (render : string -> option Book -> result string) (flag : string) : Prop :=
  forall cmd book d,
    getattr book identifiers = VDict d -> d <> [] ->
    exists out,
      render cmd (Some book) = Ok out
      /\ endswith (flag ++ quote (join_list (map entry d) ",")) out = true.

(** ** Facts about strings *)

Lemma append_nil_r (s : string) : s ++ "" = s.
Proof. induction s as [| c s IH]; simpl; [reflexivity | now rewrite IH]. Qed.

Lemma append_assoc (a b c : string) : (a ++ b) ++ c = a ++ (b ++ c).
Proof. induction a as [| x a IH]; simpl; [reflexivity | now rewrite IH]. Qed.

Lemma flat_app (xs ys : list string) : flat (xs ++ ys) = flat xs ++ flat ys.
Proof.
  induction xs as [| x xs IH]; simpl; [reflexivity |].
  now rewrite IH, append_assoc.
Qed.

Lemma mem_char_unsafe (p : ascii -> bool) (c : ascii) (s : string) :
  PyStr.mem_char c s = true -> p c = false -> PyStr.forallb_str p s = false.
Proof.
  intros Hin Hp. induction s as [| d s IH]; simpl in *; [discriminate |].
  destruct (Ascii.eqb_spec c d) as [<- | _]; simpl in Hin.
  - now rewrite Hp.
  - rewrite IH by assumption. apply andb_false_r.
Qed.

(** [quote] trims its argument and shell-quotes what is left exactly when a
    space is left in it. *)
Lemma quote_as_argument (s : string) : quote s = as_argument (PyStr.strip s).
Proof.
  unfold quote, as_argument.
  destruct (PyStr.mem_char " " (PyStr.strip s)) eqn:Hsp; [| reflexivity].
  unfold Shlex.quote, shell_quoted.
  rewrite (mem_char_unsafe Shlex.is_safe " " _ Hsp) by reflexivity.
  destruct (PyStr.strip s); [discriminate | reflexivity].
Qed.

Lemma join_list_strips (l : list string) (sep : string) :
  join_list l sep = PyStr.join sep (map PyStr.strip l).
Proof. reflexivity. Qed.

(** ** What [_run] does from a state in which the mutex is free *)

Ltac assoc_steps := repeat (rewrite !append_assoc; simpl); try reflexivity.

Ltac run_steps :=
  simpl; cbv beta delta [emit ret raise]; simpl;
  rewrite <- ?app_assoc; simpl; try reflexivity.

Section RunFacts.

Context {World : Type}.
Variable subprocess_run : World -> list string -> run_result * World.
Variable shlex_split : string -> result (list string).

Local Notation run := (_run subprocess_run shlex_split).

Lemma run_unlocked (st : state World) (cmd : string) :
  mutex st = false ->
  run cmd st =
    match shlex_split cmd with
    | Err e =>
        (Raise (reraised e),
         mkState false (records st ++ [running cmd])
           (calls st ++ [Acquire; Release]) (world st))
    | Ok argv =>
        let calls' := (calls st ++ [Acquire; Subprocess argv; Release])%list in
        match subprocess_run (world st) argv with
        | (Exited rc out err, w) =>
            if (rc =? 0)%Z then
              (Return (out, err),
               mkState false
                 (records st ++ running cmd ::
                    (if String.eqb err "" then []
                     else [(SelfLogger, WARNING, err)]))
                 calls' w)
            else
              (Raise (reraised (CalledProcessError argv rc out err)),
               mkState false (records st ++ [running cmd]) calls' w)
        | (Failed e, w) =>
            (Raise (reraised e),
             mkState false (records st ++ [running cmd]) calls' w)
        end
    end.
Proof.
  intros Hm.
  unfold _run, bind, try_finally, try_except, mutex_acquire, log, lift.
  simpl. rewrite Hm.
  destruct (shlex_split cmd) as [argv | e]; simpl.
  - unfold run_checked; simpl.
    destruct (subprocess_run (world st) argv) as [[rc out err | e] w]; simpl.
    + destruct (rc =? 0)%Z; simpl.
      * destruct (String.eqb err ""); run_steps.
      * destruct (CONCURRENCY_ERR_REGEX err); run_steps.
    + destruct e; simpl; run_steps.
      destruct (CONCURRENCY_ERR_REGEX stderr); run_steps.
  - destruct e; simpl; run_steps.
    destruct (CONCURRENCY_ERR_REGEX stderr); run_steps.
Qed.

(** A held mutex stops the call before anything is run. *)
Lemma run_locked (st : state World) (cmd : string) :
  mutex st = true ->
  fst (run cmd st) = Blocked /\ calls (snd (run cmd st)) = calls st.
Proof.
  intros Hm.
  unfold _run, bind, try_finally, try_except, mutex_acquire, log, lift.
  simpl. rewrite Hm. simpl. split; reflexivity.
Qed.

(** The successful run, as the operations use it. *)
Lemma run_returns (st : state World) (cmd : string) (argv : list string)
  (out err : string) (w : World) :
  mutex st = false ->
  shlex_split cmd = Ok argv ->
  subprocess_run (world st) argv = (Exited 0 out err, w) ->
  run cmd st =
    (Return (out, err),
     mkState false
       (records st ++ running cmd ::
          (if String.eqb err "" then [] else [(SelfLogger, WARNING, err)]))
       (calls st ++ [Acquire; Subprocess argv; Release]) w).
Proof.
  intros Hm Hs Hr. rewrite run_unlocked by assumption.
  rewrite Hs; simpl. rewrite Hr; reflexivity.
Qed.

(** C4: from a state in which the mutex is free, [_run] takes the mutex
    before anything else, runs the external tool at most once while holding
    it, and gives the mutex back last, however the call ends: with the
    tool's output, with the concurrency or the runtime error of a non-zero
    exit, with the executable not found, or with any other exception.  The
    mutex is free afterwards, so the next [_run] does not wait. *)
Theorem run_releases_mutex (st : state World) (cmd : string) :
  mutex st = false ->
  fst (run cmd st) <> Blocked
  /\ mutex (snd (run cmd st)) = false
  /\ (exists held,
        calls (snd (run cmd st)) = (calls st ++ Acquire :: held ++ [Release])%list
        /\ (held = [] \/ exists argv, held = [Subprocess argv]))
  /\ (forall w out err argv,
        shlex_split cmd = Ok argv ->
        subprocess_run (world st) argv = (Exited 0 out err, w) ->
        fst (run cmd st) = Return (out, err))
  /\ (forall w rc out err argv,
        shlex_split cmd = Ok argv ->
        subprocess_run (world st) argv = (Exited rc out err, w) ->
        rc <> 0%Z ->
        fst (run cmd st) =
          Raise (if CONCURRENCY_ERR_REGEX err
                 then CalibreConcurrencyError argv rc
                 else CalibreRuntimeError argv rc out err))
  /\ (forall w msg argv,
        shlex_split cmd = Ok argv ->
        subprocess_run (world st) argv = (Failed (FileNotFoundError msg), w) ->
        exists msg', fst (run cmd st) = Raise (FileNotFoundError msg'))
  /\ (forall cmd', fst (run cmd' (snd (run cmd st))) <> Blocked).
Proof.
  intros Hm.
  assert (Hfree : mutex (snd (run cmd st)) = false).
  { rewrite run_unlocked by assumption.
    destruct (shlex_split cmd) as [argv | e]; simpl; [| reflexivity].
    destruct (subprocess_run (world st) argv) as [[rc out err | e] w];
      simpl; [| reflexivity].
    destruct (rc =? 0)%Z; reflexivity. }
  assert (Hgo : forall (s : state World) c,
             mutex s = false -> fst (run c s) <> Blocked).
  { intros s c Hs. rewrite run_unlocked by assumption.
    destruct (shlex_split c) as [argv | e]; simpl; [| discriminate].
    destruct (subprocess_run (world s) argv) as [[rc out err | e] w];
      simpl; [| discriminate].
    destruct (rc =? 0)%Z; discriminate. }
  split; [apply Hgo; assumption |].
  split; [assumption |].
  split.
  { rewrite run_unlocked by assumption.
    destruct (shlex_split cmd) as [argv | e]; simpl.
    - exists [Subprocess argv].
      split; [| right; exists argv; reflexivity].
      destruct (subprocess_run (world st) argv) as [[rc out err | e] w];
        simpl; [| reflexivity].
      destruct (rc =? 0)%Z; reflexivity.
    - exists []. split; [reflexivity | left; reflexivity]. }
  split.
  { intros w out err argv Hs Hr. rewrite run_unlocked by assumption.
    rewrite Hs; simpl. rewrite Hr; reflexivity. }
  split.
  { intros w rc out err argv Hs Hr Hrc. rewrite run_unlocked by assumption.
    rewrite Hs; simpl. rewrite Hr.
    destruct (Z.eqb_spec rc 0) as [-> | _]; [congruence |].
    simpl. destruct (CONCURRENCY_ERR_REGEX err); reflexivity. }
  split.
  { intros w msg argv Hs Hr. rewrite run_unlocked by assumption.
    rewrite Hs; simpl. rewrite Hr. simpl. eexists; reflexivity. }
  intros cmd'. apply Hgo. assumption.
Qed.

End RunFacts.

(** ** The builders against the rendering rules *)

Section BuilderFacts.

Variable py_repr : value -> string.

Lemma identifier_flags (name : string) (d : list (string * string))
  (cmd : string) :
  fold_left
    (fun cmd kv =>
       let identifier := fst kv ++ ":" ++ snd kv in
       cmd ++ " --" ++ name ++ " " ++ quote identifier) d cmd
  = cmd ++ flat (map (fun kv =>
                        " --" ++ name ++ " "
                          ++ as_argument (PyStr.strip (entry kv))) d).
Proof.
  revert cmd. induction d as [| kv d IH]; intros cmd; simpl.
  - now rewrite append_nil_r.
  - rewrite IH, quote_as_argument. unfold entry. assoc_steps.
Qed.

Lemma joined_value (a : attr) (v : value) :
  py_str py_repr
    match v with
    | VList l =>
        if attr_eqb a authors
        then VStr (join_list l " & ")
        else VStr (join_list l ",")
    | _ => v
    end
  = flag_value py_repr a v.
Proof.
  destruct v; try reflexivity.
  simpl. destruct (attr_eqb a authors); reflexivity.
Qed.

Lemma add_flags_loop_spec (flags : list (attr * string)) (book : Book)
  (cmd : string) :
  identifiers_is_mapping book ->
  add_flags_loop py_repr flags book cmd
  = Ok (cmd ++ flat (map (add_segment py_repr book)
                       (through_identifiers fst (populated fst book flags)))).
Proof.
  intros Hid. unfold identifiers_is_mapping, getattr in Hid. revert cmd.
  set (seg := add_segment py_repr book).
  induction flags as [| [flag flag_name] rest IH]; intros cmd; simpl.
  - now rewrite append_nil_r.
  - unfold getattr in *.
    destruct (truthy (book flag)) eqn:Ht; simpl; [| apply IH].
    destruct (attr_eqb flag identifiers) eqn:Hf; simpl.
    + unfold attr_eqb in Hf.
      destruct (attr_eq_dec flag identifiers) as [-> | ]; [| discriminate].
      destruct (Hid Ht) as [d Hd]. rewrite Hd. simpl.
      subst seg. unfold add_segment, getattr; simpl.
      rewrite Hd, append_nil_r.
      f_equal. apply identifier_flags.
    + rewrite IH. f_equal.
      subst seg. unfold add_segment at 2. unfold getattr; simpl.
      rewrite Hf, <- joined_value, <- quote_as_argument. assoc_steps.
Qed.

Lemma update_flags_loop_spec (fields : list attr) (book : Book)
  (cmd : string) :
  identifiers_is_mapping book ->
  update_flags_loop py_repr fields book cmd
  = Ok (cmd ++ flat (map (update_segment py_repr book)
                       (through_identifiers (fun a => a)
                          (populated (fun a => a) book fields)))).
Proof.
  intros Hid. unfold identifiers_is_mapping, getattr in Hid. revert cmd.
  set (seg := update_segment py_repr book).
  induction fields as [| field rest IH]; intros cmd; simpl.
  - now rewrite append_nil_r.
  - unfold getattr in *.
    destruct (truthy (book field)) eqn:Ht; simpl; [| apply IH].
    destruct (attr_eqb field identifiers) eqn:Hf; simpl.
    + unfold attr_eqb in Hf.
      destruct (attr_eq_dec field identifiers) as [-> | ]; [| discriminate].
      destruct (Hid Ht) as [d Hd]. rewrite Hd. simpl.
      subst seg. unfold update_segment, getattr; simpl.
      rewrite Hd, append_nil_r.
      rewrite <- join_list_strips, <- quote_as_argument. assoc_steps.
    + rewrite IH. f_equal.
      subst seg. unfold update_segment at 2. unfold getattr; simpl.
      rewrite Hf, <- joined_value, <- quote_as_argument. assoc_steps.
Qed.

Lemma identifier_flags_quote (name : string) (d : list (string * string))
  (cmd : string) :
  fold_left
    (fun cmd kv =>
       let identifier := fst kv ++ ":" ++ snd kv in
       cmd ++ " --" ++ name ++ " " ++ quote identifier) d cmd
  = cmd ++ flat (map (fun kv => " --" ++ name ++ " " ++ quote (entry kv)) d).
Proof.
  revert cmd. induction d as [| kv d IH]; intros cmd; simpl.
  - now rewrite append_nil_r.
  - rewrite IH. unfold entry. assoc_steps.
Qed.

Lemma nonempty_mapping_truthy (d : list (string * string)) :
  d <> [] -> truthy (VDict d) = true.
Proof. destruct d; [congruence | reflexivity]. Qed.

(** The fields scanned before the identifiers never raise, and the scan
    goes on from the command they leave. *)
Lemma add_loop_before_identifiers (l1 l2 : list (attr * string))
  (book : Book) (cmd : string) :
  forallb (fun f => negb (attr_eqb (fst f) identifiers)) l1 = true ->
  exists pre,
    add_flags_loop py_repr l1 book cmd = Ok pre
    /\ add_flags_loop py_repr (l1 ++ l2) book cmd
       = add_flags_loop py_repr l2 book pre.
Proof.
  revert cmd. induction l1 as [| [flag name] l1 IH]; intros cmd Hall.
  - exists cmd. split; reflexivity.
  - simpl in Hall. apply andb_true_iff in Hall. destruct Hall as [Hf Hall].
    apply negb_true_iff in Hf.
    cbn [add_flags_loop app]. rewrite Hf.
    destruct (truthy (getattr book flag)); apply IH; assumption.
Qed.

Lemma update_loop_before_identifiers (l1 l2 : list attr) (book : Book)
  (cmd : string) :
  forallb (fun a => negb (attr_eqb a identifiers)) l1 = true ->
  exists pre,
    update_flags_loop py_repr l1 book cmd = Ok pre
    /\ update_flags_loop py_repr (l1 ++ l2) book cmd
       = update_flags_loop py_repr l2 book pre.
Proof.
  revert cmd. induction l1 as [| field l1 IH]; intros cmd Hall.
  - exists cmd. split; reflexivity.
  - simpl in Hall. apply andb_true_iff in Hall. destruct Hall as [Hf Hall].
    apply negb_true_iff in Hf.
    cbn [update_flags_loop app]. rewrite Hf.
    destruct (truthy (getattr book field)); apply IH; assumption.
Qed.

(** The scan stops at a populated identifiers mapping. *)
Lemma add_loop_at_identifiers (name : string) (rest : list (attr * string))
  (book : Book) (d : list (string * string)) (cmd : string) :
  getattr book identifiers = VDict d ->
  d <> [] ->
  add_flags_loop py_repr ((identifiers, name) :: rest) book cmd
  = Ok (cmd ++ flat (map (fun kv => " --" ++ name ++ " " ++ quote (entry kv))
                       d)).
Proof.
  intros Hd Hne. cbn [add_flags_loop]. rewrite Hd.
  rewrite (nonempty_mapping_truthy d Hne).
  change (attr_eqb identifiers identifiers) with true. cbv iota.
  f_equal. apply identifier_flags_quote.
Qed.

Lemma update_loop_at_identifiers (rest : list attr) (book : Book)
  (d : list (string * string)) (cmd : string) :
  getattr book identifiers = VDict d ->
  d <> [] ->
  update_flags_loop py_repr (identifiers :: rest) book cmd
  = Ok (cmd ++ " --field identifiers:" ++ quote (join_list (map entry d) ",")).
Proof.
  intros Hd Hne. cbn [update_flags_loop]. rewrite Hd.
  rewrite (nonempty_mapping_truthy d Hne).
  reflexivity.
Qed.

(** A scan reads the record only at the fields of its table. *)
Lemma add_loop_ext (l : list (attr * string)) (book' book : Book)
  (cmd : string) :
  (forall a, In a (map fst l) -> getattr book' a = getattr book a) ->
  add_flags_loop py_repr l book' cmd = add_flags_loop py_repr l book cmd.
Proof.
  revert cmd. induction l as [| [flag name] l IH]; intros cmd Hsame.
  - reflexivity.
  - cbn [add_flags_loop]. rewrite (Hsame flag) by (simpl; tauto).
    assert (Hrest : forall a, In a (map fst l) ->
                              getattr book' a = getattr book a)
      by (intros a Ha; apply Hsame; simpl; tauto).
    destruct (truthy (getattr book flag)); [| now apply IH].
    destruct (attr_eqb flag identifiers); [reflexivity | now apply IH].
Qed.

Lemma update_loop_ext (l : list attr) (book' book : Book) (cmd : string) :
  (forall a, In a l -> getattr book' a = getattr book a) ->
  update_flags_loop py_repr l book' cmd = update_flags_loop py_repr l book cmd.
Proof.
  revert cmd. induction l as [| field l IH]; intros cmd Hsame.
  - reflexivity.
  - cbn [update_flags_loop]. rewrite (Hsame field) by (simpl; tauto).
    assert (Hrest : forall a, In a l -> getattr book' a = getattr book a)
      by (intros a Ha; apply Hsame; simpl; tauto).
    destruct (truthy (getattr book field)); [| now apply IH].
    destruct (attr_eqb field identifiers); [reflexivity | now apply IH].
Qed.

(** C2, amended: when the identifiers mapping of a record is populated,
    the add builder renders every entry as [key:value] in a flag
    [--identifier] of its own, one flag per entry in the order of the
    mapping, after the flags of the authors and the cover; the update
    builder joins the entries with a comma into the single value of one
    [--field identifiers:] flag.  In both builders nothing is appended after
    the identifiers: the command does not depend on the fields that follow
    them in the table. *)
Theorem identifiers_flags_are_terminal (book : Book)
  (d : list (string * string)) (cmd : string) :
  getattr book identifiers = VDict d ->
  d <> [] ->
  (exists pre,
      add_flags_loop py_repr [(authors, "authors"); (cover, "cover")] book cmd
      = Ok pre
      /\ _handle_add_flags py_repr cmd (Some book)
         = Ok (pre ++ flat (map (fun kv => " --identifier " ++ quote (entry kv))
                              d)))
  /\ (exists pre,
        update_flags_loop py_repr [author_sort; authors; comments; id] book cmd
        = Ok pre
        /\ _handle_update_flags py_repr cmd (Some book)
           = Ok (pre ++ " --field identifiers:"
                     ++ quote (join_list (map entry d) ",")))
  /\ (forall book' : Book,
        (forall a, In a [authors; cover; identifiers] ->
                   getattr book' a = getattr book a) ->
        _handle_add_flags py_repr cmd (Some book')
        = _handle_add_flags py_repr cmd (Some book))
  /\ (forall book' : Book,
        (forall a, In a [author_sort; authors; comments; id; identifiers] ->
                   getattr book' a = getattr book a) ->
        _handle_update_flags py_repr cmd (Some book')
        = _handle_update_flags py_repr cmd (Some book)).
Proof.
  intros Hd Hne.
  assert (Hadd : forall b : Book,
             getattr b identifiers = VDict d ->
             exists pre,
               add_flags_loop py_repr
                 [(authors, "authors"); (cover, "cover")] b cmd = Ok pre
               /\ _handle_add_flags py_repr cmd (Some b)
                  = Ok (pre ++ flat (map (fun kv =>
                                            " --identifier "
                                              ++ quote (entry kv)) d))).
  { intros b Hb. unfold _handle_add_flags.
    destruct (add_loop_before_identifiers
                [(authors, "authors"); (cover, "cover")]
                [(identifiers, "identifier"); (isbn, "isbn");
                 (languages, "languages"); (series, "series");
                 (series_index, "series-index"); (tags, "tags");
                 (title, "title")] b cmd eq_refl) as [pre [Hpre Heq]].
    exists pre. split; [assumption |].
    change ADD_FLAGS with
      ([(authors, "authors"); (cover, "cover")]
         ++ [(identifiers, "identifier"); (isbn, "isbn");
             (languages, "languages"); (series, "series");
             (series_index, "series-index"); (tags, "tags");
             (title, "title")])%list.
    rewrite Heq. now apply add_loop_at_identifiers. }
  assert (Hupd : forall b : Book,
             getattr b identifiers = VDict d ->
             exists pre,
               update_flags_loop py_repr
                 [author_sort; authors; comments; id] b cmd = Ok pre
               /\ _handle_update_flags py_repr cmd (Some b)
                  = Ok (pre ++ " --field identifiers:"
                            ++ quote (join_list (map entry d) ","))).
  { intros b Hb. unfold _handle_update_flags.
    destruct (update_loop_before_identifiers
                [author_sort; authors; comments; id]
                [identifiers; languages; pubdate; publisher; rating; series;
                 series_index; size; tags; timestamp; title] b cmd eq_refl)
      as [pre [Hpre Heq]].
    exists pre. split; [assumption |].
    change UPDATE_FLAGS with
      ([author_sort; authors; comments; id]
         ++ [identifiers; languages; pubdate; publisher; rating; series;
             series_index; size; tags; timestamp; title])%list.
    rewrite Heq. now apply update_loop_at_identifiers. }
  split; [apply Hadd; assumption |].
  split; [apply Hupd; assumption |].
  split.
  - intros b Hb.
    destruct (Hadd b) as [pre' [Hp' ->]];
      [rewrite (Hb identifiers) by (simpl; tauto); assumption |].
    destruct (Hadd book Hd) as [pre [Hp ->]].
    rewrite (add_loop_ext _ b book cmd) in Hp'
      by (intros a [<- | [<- | []]]; apply Hb; simpl; tauto).
    congruence.
  - intros b Hb.
    destruct (Hupd b) as [pre' [Hp' ->]];
      [rewrite (Hb identifiers) by (simpl; tauto); assumption |].
    destruct (Hupd book Hd) as [pre [Hp ->]].
    rewrite (update_loop_ext _ b book cmd) in Hp'
      by (intros a [<- | [<- | [<- | [<- | []]]]]; apply Hb; simpl; tauto).
    congruence.
Qed.

(** C8: for every record (whose identifiers, when populated, are a
    mapping), the add builder and the update builder append one segment per
    populated field, in table order and up to the identifiers.  The value of
    a list-valued field is its elements, each trimmed, joined with [" & "]
    for the authors and with a comma for any other field; the value is
    trimmed and then emitted inside shell quotes when it contains a space,
    and as it is when it contains none. *)
Theorem flag_values_joined_and_quoted (book : Book) (cmd : string) :
  identifiers_is_mapping book ->
  _handle_add_flags py_repr cmd (Some book)
  = Ok (cmd ++ flat (map (add_segment py_repr book)
                       (through_identifiers fst
                          (populated fst book ADD_FLAGS))))
  /\ _handle_update_flags py_repr cmd (Some book)
     = Ok (cmd ++ flat (map (update_segment py_repr book)
                          (through_identifiers (fun a => a)
                             (populated (fun a => a) book UPDATE_FLAGS))))
  /\ (forall a l,
        flag_value py_repr a (VList l)
        = PyStr.join (if attr_eqb a authors then " & " else ",")
            (map PyStr.strip l))
  /\ (forall t,
        (PyStr.mem_char " " t = true -> as_argument t = shell_quoted t)
        /\ (PyStr.mem_char " " t = false -> as_argument t = t)).
Proof.
  intros Hid. split; [| split; [| split]].
  - apply add_flags_loop_spec; assumption.
  - apply update_flags_loop_spec; assumption.
  - reflexivity.
  - intros t. unfold as_argument. split; intros ->; reflexivity.
Qed.

End BuilderFacts.

(** ** Facts about the decimal text of an integer *)

Lemma mem_char_app (c : ascii) (a b : string) :
  PyStr.mem_char c (a ++ b) = PyStr.mem_char c a || PyStr.mem_char c b.
Proof.
  induction a as [| x a IH]; simpl; [reflexivity |].
  now rewrite IH, orb_assoc.
Qed.

Lemma prefix_mem_char (c : ascii) (sub s : string) :
  prefix sub s = true ->
  PyStr.mem_char c sub = true -> PyStr.mem_char c s = true.
Proof.
  revert s. induction sub as [| a sub IH]; intros s Hp Hc; simpl in *.
  - discriminate.
  - destruct s as [| b s]; simpl in Hp; [discriminate |].
    destruct (ascii_dec a b) as [-> | ]; [| discriminate].
    simpl. destruct (Ascii.eqb c b); simpl in *; [reflexivity |].
    now apply IH.
Qed.

(** A string in which [sub] occurs has every character of [sub]. *)
Lemma contains_mem_char (c : ascii) (sub s : string) :
  PyStr.contains sub s = true ->
  PyStr.mem_char c sub = true -> PyStr.mem_char c s = true.
Proof.
  intros Hs Hc. induction s as [| b s IH].
  - simpl in Hs. rewrite orb_false_r in Hs.
    now apply (prefix_mem_char c sub "").
  - unfold PyStr.contains in Hs; fold PyStr.contains in Hs.
    apply orb_true_iff in Hs. destruct Hs as [Hp | Hs].
    + now apply (prefix_mem_char c sub).
    + simpl. rewrite (IH Hs). apply orb_true_r.
Qed.

Lemma prefix_app (sub t : string) : prefix sub (sub ++ t) = true.
Proof.
  induction sub as [| y sub IH]; simpl; [now destruct t |].
  destruct (ascii_dec y y); [apply IH | congruence].
Qed.

Lemma prefix_contains (sub s : string) :
  prefix sub s = true -> PyStr.contains sub s = true.
Proof. intros H. destruct s; simpl in *; rewrite H; reflexivity. Qed.

Lemma contains_app (sub a b : string) :
  PyStr.contains sub (a ++ sub ++ b) = true.
Proof.
  induction a as [| x a IH].
  - change ("" ++ sub ++ b) with (sub ++ b).
    apply prefix_contains, prefix_app.
  - change (String x a ++ sub ++ b) with (String x (a ++ sub ++ b)).
    unfold PyStr.contains; fold PyStr.contains.
    rewrite IH. apply orb_true_r.
Qed.

Lemma digits_no_letter (d : Decimal.uint) :
  PyStr.mem_char "p" (NilEmpty.string_of_uint d) = false.
Proof. induction d; simpl; auto. Qed.

Lemma uint_no_letter (d : Decimal.uint) :
  PyStr.mem_char "p" (NilZero.string_of_uint d) = false.
Proof. destruct d; try reflexivity; apply digits_no_letter. Qed.

Lemma str_int_no_letter (n : Z) : PyStr.mem_char "p" (PyStr.str_int n) = false.
Proof.
  unfold PyStr.str_int. destruct (Z.to_int n); simpl; apply uint_no_letter.
Qed.

(** ** The operations *)

Section OperationFacts.

Context {World : Type}.
Variable subprocess_run : World -> list string -> run_result * World.
Variable path_exists : World -> string -> bool.
Variable shlex_split : string -> result (list string).
Variable json_loads : string -> json + string.
Variable Book_init : list (string * json) -> result Book.
Variable py_repr : value -> string.
Variable cdb_with_lib : string.

Local Notation run := (_run subprocess_run shlex_split).
Local Notation get_book' :=
  (get_book subprocess_run shlex_split json_loads Book_init cdb_with_lib).
Local Notation run_add := (_run_add subprocess_run shlex_split py_repr).
Local Notation add_format' :=
  (add_format subprocess_run shlex_split cdb_with_lib).
Local Notation remove_format' :=
  (remove_format subprocess_run shlex_split cdb_with_lib).
Local Notation show_metadata' :=
  (show_metadata subprocess_run shlex_split cdb_with_lib).
Local Notation set_metadata' :=
  (set_metadata subprocess_run path_exists shlex_split json_loads Book_init
     py_repr cdb_with_lib).

Lemma validate_id_rejects (n : Z) :
  (n <= 0)%Z -> validate_id n = Err (rejected_id n).
Proof.
  intros H. unfold validate_id, rejected_id.
  destruct (Z.leb_spec n 0); [reflexivity | lia].
Qed.

Lemma validate_id_accepts (n : Z) : (0 < n)%Z -> validate_id n = Ok tt.
Proof.
  intros H. unfold validate_id.
  destruct (Z.leb_spec n 0); [lia | reflexivity].
Qed.

(** C5: for an id that is zero or negative, [get_book], [add_format],
    [remove_format], [show_metadata] and [set_metadata] raise the
    rejected-input error of [validate_id] and leave the state as it was: the
    mutex is not taken, nothing is logged and the external tool is not
    run. *)
Theorem nonpositive_id_rejected (st : state World) (n : Z)
  (replace data_file : bool) (format : string) (book : option Book)
  (metadata_path : option string) :
  (n <= 0)%Z ->
  get_book' n st = (Raise (rejected_id n), st)
  /\ add_format' n replace data_file st = (Raise (rejected_id n), st)
  /\ remove_format' n format st = (Raise (rejected_id n), st)
  /\ show_metadata' n st = (Raise (rejected_id n), st)
  /\ set_metadata' n book metadata_path st = (Raise (rejected_id n), st).
Proof.
  intros H.
  unfold get_book, add_format, remove_format, show_metadata, set_metadata,
    bind.
  rewrite (validate_id_rejects n H).
  repeat split; reflexivity.
Qed.

Lemma get_book_runs_list (st : state World) (n : Z) :
  (0 < n)%Z ->
  get_book' n st =
    bind (run (list_one_command cdb_with_lib n))
      (fun process =>
         let out := fst process in
         match json_loads out with
         | inr exc =>
             bind (log SelfLogger ERROR
                     ("Error decoding JSON: " ++ exc ++ PyStr.nl ++ PyStr.nl
                        ++ out))
               (fun _ => ret None)
         | inl b =>
             bind (lift (py_len b))
               (fun len =>
                  if (len =? 1)%nat then
                    bind (lift (py_first b))
                      (fun b0 =>
                         bind (lift (Book_kwargs Book_init b0))
                           (fun book => ret (Some book)))
                  else ret None)
         end) st.
Proof.
  intros H. unfold get_book, bind at 1.
  rewrite (validate_id_accepts n H). simpl.
  unfold list_one_command. reflexivity.
Qed.

(** C9: for a positive id, when the list query has run and exited with
    status zero, [get_book] returns [None] if the output does not decode as
    JSON, and also if it decodes to a list that does not have exactly one
    element.  No exception is raised in either case. *)
Theorem get_book_none_on_unusable_output (st : state World) (n : Z)
  (argv : list string) (out err : string) (w : World) :
  (0 < n)%Z ->
  mutex st = false ->
  shlex_split (list_one_command cdb_with_lib n) = Ok argv ->
  subprocess_run (world st) argv = (Exited 0 out err, w) ->
  (forall exc, json_loads out = inr exc -> fst (get_book' n st) = Return None)
  /\ (forall l,
        json_loads out = inl (JList l) ->
        List.length l <> 1%nat ->
        fst (get_book' n st) = Return None).
Proof.
  intros Hn Hm Hs Hr.
  split.
  - intros exc Hj. rewrite get_book_runs_list by assumption.
    unfold bind at 1. rewrite (run_returns _ _ _ _ _ _ _ _ Hm Hs Hr).
    simpl. rewrite Hj. reflexivity.
  - intros l Hj Hl. rewrite get_book_runs_list by assumption.
    unfold bind at 1. rewrite (run_returns _ _ _ _ _ _ _ _ Hm Hs Hr).
    simpl. rewrite Hj. simpl. unfold bind, lift, ret. simpl.
    destruct (Nat.eqb_spec (List.length l) 1); [contradiction | reflexivity].
Qed.

(** C10: for a positive id, [add_format] runs the command made of
    [self.cdb_with_lib] and the arguments [add_format <id>], then
    [--dont-replace] when [replace] is true, then [--as-extra-data-file]
    when [data_file] is true.  The text [--dont-replace] occurs in these
    arguments exactly when [replace] is true. *)
Theorem add_format_replace_flag (st : state World) (n : Z)
  (replace data_file : bool) :
  (0 < n)%Z ->
  add_format' n replace data_file st
  = bind (run (cdb_with_lib ++ add_format_arguments n replace data_file))
      (fun process => ret (fst process)) st
  /\ PyStr.contains "--dont-replace"
       (add_format_arguments n replace data_file) = replace.
Proof.
  intros Hn. split.
  - unfold add_format, bind at 1.
    rewrite (validate_id_accepts n Hn). simpl.
    unfold add_format_arguments.
    destruct replace, data_file; simpl; assoc_steps;
      rewrite ?append_nil_r; reflexivity.
  - unfold add_format_arguments. destruct replace; cbv iota.
    + replace (" add_format " ++ PyStr.str_int n ++ " --dont-replace"
                 ++ (if data_file then " --as-extra-data-file" else ""))
        with ((" add_format " ++ PyStr.str_int n ++ " ") ++ "--dont-replace"
                ++ (if data_file then " --as-extra-data-file" else ""))
        by (rewrite !append_assoc; reflexivity).
      apply contains_app.
    + match goal with
      | |- PyStr.contains ?sub ?s = false =>
          destruct (PyStr.contains sub s) eqn:E; [| reflexivity]
      end.
      apply (contains_mem_char "p") in E; [| reflexivity].
      rewrite !mem_char_app, str_int_no_letter in E.
      destruct data_file; vm_compute in E; discriminate E.
Qed.

Lemma split_go_not_empty (sep : string) (s cur : string) (skip : nat) :
  (List.length (PyStr.split_go sep skip cur s) <? 1)%nat = false.
Proof.
  revert skip cur. induction s as [| c s IH]; intros skip cur; simpl.
  - reflexivity.
  - destruct skip; [| apply IH].
    match goal with
    | |- context [if ?b then _ else _] => destruct b
    end; [reflexivity | apply IH].
Qed.

(** [str.split] always gives at least one piece, so the two "No books were
    ..." branches of [_run_add] are never taken. *)
Lemma split_not_empty (sep s : string) :
  (List.length (PyStr.split sep s) <? 1)%nat = false.
Proof. apply split_go_not_empty. Qed.

Ltac classify_steps :=
  cbv beta iota; cbn [fst snd];
  destruct (BOOK_IGNORED_REGEX _); [split; reflexivity |];
  destruct (BOOK_MERGED_REGEX _) as [? |];
  [rewrite split_not_empty; split; reflexivity |];
  destruct (BOOK_ADDED_REGEX _) as [? |];
  [rewrite split_not_empty; split; reflexivity |];
  split; reflexivity.

(** What [_run_add] gives once the tool has run and exited with status
    zero, and what it has done by then. *)
Lemma run_add_outcome (st : state World) (cmd : string) (book : option Book)
  (automerge cmd1 : string) (argv : list string) (out stderr : string)
  (w : World) :
  mutex st = false ->
  _handle_add_flags py_repr
    (cmd ++ " --automerge=" ++ automerge_policy automerge) book = Ok cmd1 ->
  shlex_split cmd1 = Ok argv ->
  subprocess_run (world st) argv = (Exited 0 out stderr, w) ->
  fst (run_add cmd book automerge st)
  = (if BOOK_IGNORED_REGEX stderr then Raise (already_exists out)
     else
       match BOOK_MERGED_REGEX out with
       | Some ids => Return (PyStr.split ", " ids)
       | None =>
           match BOOK_ADDED_REGEX out with
           | Some ids => Return (PyStr.split ", " ids)
           | None => Raise unparsed_output
           end
       end)
  /\ calls (snd (run_add cmd book automerge st))
     = (calls st ++ [Acquire; Subprocess argv; Release])%list.
Proof.
  intros Hm Hf Hs Hr. unfold automerge_policy in Hf.
  remember (run_add cmd book automerge st) as r eqn:Er.
  unfold _run_add in Er.
  destruct (in_list automerge AUTOMERGE_VALID_VALUES) eqn:Hin.
  - unfold bind at 1 in Er. unfold ret at 1 in Er. unfold bind at 1 in Er.
    rewrite Hf in Er.
    unfold lift at 1, ret at 1 in Er. unfold bind at 1 in Er.
    rewrite (run_returns _ _ _ _ _ _ _ _ Hm Hs Hr) in Er.
    subst r. classify_steps.
  - change (cmd ++ " --automerge=" ++ "ignore")
      with (cmd ++ " --automerge=ignore") in Hf.
    unfold bind at 1 in Er. unfold bind at 1 in Er. unfold log at 1 in Er.
    unfold ret at 1 in Er. unfold bind at 1 in Er. rewrite Hf in Er.
    unfold lift at 1, ret at 1 in Er. unfold bind at 1 in Er.
    match type of Er with
    | context [_run _ _ cmd1 ?s] =>
        rewrite (run_returns subprocess_run shlex_split s cmd1 argv out
                   stderr w Hm Hs Hr) in Er
    end.
    subst r. classify_steps.
Qed.

(** C3: once the add command has run and exited with status zero,
    [_run_add] ends in exactly one of four ways, found by trying the
    patterns in the order conflict, merged, added.  A match of the
    already-exists pattern on stderr raises the already-exists error with
    the trimmed stdout, whatever stdout holds; otherwise a match of the
    merged pattern on stdout returns its ids; otherwise a match of the
    added pattern returns its ids; when nothing matches, the generic error
    for output that cannot be parsed is raised. *)
Theorem add_outcome_priority (st : state World) (cmd : string)
  (book : option Book) (automerge cmd1 : string) (argv : list string)
  (out stderr : string) (w : World) :
  mutex st = false ->
  _handle_add_flags py_repr
    (cmd ++ " --automerge=" ++ automerge_policy automerge) book = Ok cmd1 ->
  shlex_split cmd1 = Ok argv ->
  subprocess_run (world st) argv = (Exited 0 out stderr, w) ->
  (BOOK_IGNORED_REGEX stderr = true ->
   fst (run_add cmd book automerge st) = Raise (already_exists out))
  /\ (forall ids,
        BOOK_IGNORED_REGEX stderr = false ->
        BOOK_MERGED_REGEX out = Some ids ->
        fst (run_add cmd book automerge st) = Return (PyStr.split ", " ids))
  /\ (forall ids,
        BOOK_IGNORED_REGEX stderr = false ->
        BOOK_MERGED_REGEX out = None ->
        BOOK_ADDED_REGEX out = Some ids ->
        fst (run_add cmd book automerge st) = Return (PyStr.split ", " ids))
  /\ (BOOK_IGNORED_REGEX stderr = false ->
      BOOK_MERGED_REGEX out = None ->
      BOOK_ADDED_REGEX out = None ->
      fst (run_add cmd book automerge st) = Raise unparsed_output).
Proof.
  intros Hm Hf Hs Hr.
  destruct (run_add_outcome st cmd book automerge cmd1 argv out stderr w
              Hm Hf Hs Hr) as [Hfst _].
  rewrite Hfst. repeat split.
  - intros ->. reflexivity.
  - intros ids -> ->. reflexivity.
  - intros ids -> -> ->. reflexivity.
  - intros -> -> ->. reflexivity.
Qed.

(** C7: an automerge value outside the three valid ones makes [_run_add]
    write one warning and then do exactly what it does for [ignore]; so it
    raises nothing that [ignore] would not raise.  Whatever the value, the
    tool is run on the command built from [--automerge=] followed by the
    policy: the value itself when it is valid, [ignore] when it is not. *)
Theorem automerge_normalized (st : state World) (cmd : string)
  (book : option Book) (automerge : string) :
  (in_list automerge AUTOMERGE_VALID_VALUES = false ->
   run_add cmd book automerge st
   = run_add cmd book "ignore"
       (mkState (mutex st) (records st ++ [automerge_warning automerge])
          (calls st) (world st)))
  /\ (in_list automerge AUTOMERGE_VALID_VALUES = true ->
      automerge_policy automerge = automerge)
  /\ (forall cmd1 argv out stderr w,
        mutex st = false ->
        _handle_add_flags py_repr
          (cmd ++ " --automerge=" ++ automerge_policy automerge) book
        = Ok cmd1 ->
        shlex_split cmd1 = Ok argv ->
        subprocess_run (world st) argv = (Exited 0 out stderr, w) ->
        calls (snd (run_add cmd book automerge st))
        = (calls st ++ [Acquire; Subprocess argv; Release])%list).
Proof.
  split; [| split].
  - intros Hin. unfold _run_add. rewrite Hin.
    change (in_list "ignore" AUTOMERGE_VALID_VALUES) with true.
    reflexivity.
  - intros Hin. unfold automerge_policy. now rewrite Hin.
  - intros cmd1 argv out stderr w Hm Hf Hs Hr.
    apply (run_add_outcome st cmd book automerge cmd1 argv out stderr w
             Hm Hf Hs Hr).
Qed.

(** A [get_book] that comes back has run the list query once, holding the
    mutex around it. *)
Lemma get_book_has_run (st st1 : state World) (n : Z) (found : option Book) :
  mutex st = false ->
  get_book' n st = (Return found, st1) ->
  exists argv,
    calls st1 = (calls st ++ [Acquire; Subprocess argv; Release])%list.
Proof.
  intros Hm Hg.
  destruct (Z.leb_spec n 0) as [Hn | Hn].
  - pose proof (nonpositive_id_rejected st n false false "" None None Hn)
      as [Hr _].
    rewrite Hr in Hg. discriminate.
  - rewrite get_book_runs_list in Hg by assumption.
    unfold bind at 1 in Hg. rewrite run_unlocked in Hg by assumption.
    destruct (shlex_split (list_one_command cdb_with_lib n)) as [argv | e];
      [| discriminate].
    exists argv. cbv zeta in Hg.
    destruct (subprocess_run (world st) argv) as [[rc out err | e] w];
      [| discriminate].
    destruct (rc =? 0)%Z; [| discriminate].
    cbn [fst] in Hg.
    destruct (json_loads out) as [b | exc].
    + unfold bind at 1 in Hg. destruct (py_len b) as [len | e];
        [| discriminate].
      cbn [lift ret] in Hg. cbv beta iota in Hg.
      destruct (len =? 1)%nat.
      * unfold bind at 1 in Hg. destruct (py_first b) as [b0 | e];
          [| discriminate].
        cbn [lift ret] in Hg. cbv beta iota in Hg.
        unfold bind at 1 in Hg.
        destruct (Book_kwargs Book_init b0) as [bk | e]; [| discriminate].
        cbn [lift ret] in Hg. cbv beta iota in Hg.
        injection Hg as _ <-. reflexivity.
      * injection Hg as _ <-. reflexivity.
    + injection Hg as _ <-. reflexivity.
Qed.

(** C6, amended: for a positive id, [set_metadata] first runs the existence
    check, the list query of [get_book].  When the check finds no record
    the result is -1, with nothing raised and nothing run after the check,
    whatever record or path was given.  When the check finds the record and
    neither a record nor a non-empty path is given, the rejected-input
    error is raised, after the list query and with nothing run after it. *)
Theorem set_metadata_checks_existence_first (st st1 : state World) (n : Z) :
  (0 < n)%Z ->
  mutex st = false ->
  (get_book' n st = (Return None, st1) ->
   forall book metadata_path,
     set_metadata' n book metadata_path st = (Return (-1)%Z, st1))
  /\ (forall found,
        get_book' n st = (Return (Some found), st1) ->
        forall metadata_path,
          metadata_path = None \/ metadata_path = Some EmptyString ->
          set_metadata' n None metadata_path st
          = (Raise (ValueError "No metadata given for update"), st1))
  /\ (forall found,
        get_book' n st = (Return found, st1) ->
        exists argv,
          calls st1 = (calls st ++ [Acquire; Subprocess argv; Release])%list).
Proof.
  intros Hn Hm. split; [| split].
  - intros Hg book metadata_path.
    unfold set_metadata, bind at 1.
    rewrite (validate_id_accepts n Hn).
    cbn [lift ret]. cbv beta iota. unfold bind at 1. rewrite Hg.
    reflexivity.
  - intros found Hg metadata_path Hp.
    unfold set_metadata, bind at 1.
    rewrite (validate_id_accepts n Hn).
    cbn [lift ret]. cbv beta iota. unfold bind at 1. rewrite Hg.
    destruct Hp as [-> | ->]; reflexivity.
  - intros found Hg. apply (get_book_has_run st st1 n found Hm Hg).
Qed.

End OperationFacts.

(** ** The wrapper run on concrete inputs *)

(** C1: the tool prints its ids separated by a comma and a space.  On the
    stdout [Added book ids: 7, 8] the added pattern, whose character class
    has no space, captures only [7,], and [_run_add] returns the one piece
    [7,] instead of the ids 7 and 8.  The merged pattern, whose class has
    the space, gives both ids on the same list. *)
Theorem added_ids_cut_at_first_space :
  BOOK_ADDED_REGEX "Added book ids: 7, 8" = Some "7,"
  /\ fst (Script.add_one_empty None "ignore"
            (Script.fresh [Exited 0 "Added book ids: 7, 8" ""]))
     = Return ["7,"]
  /\ fst (Script.add_one_empty None "ignore"
            (Script.fresh [Exited 0 "Merged book ids: 7, 8" ""]))
     = Return ["7"; "8"].
Proof. repeat split; vm_compute; reflexivity. Qed.

(** C2, the claim as stated fails: for the mapping with the entries
    [isbn:123] and [x:y] the add builder emits two [--identifier] flags,
    and the joined value [isbn:123,x:y] occurs nowhere in the command. *)
Lemma identifiers_not_joined_by_add :
  _handle_add_flags Script.py_repr "calibredb add"
    (Some Script.book_two_identifiers)
  = Ok "calibredb add --identifier isbn:123 --identifier x:y"
  /\ PyStr.contains "isbn:123,x:y"
       "calibredb add --identifier isbn:123 --identifier x:y" = false
  /\ count "--identifier"
       "calibredb add --identifier isbn:123 --identifier x:y" = 2%nat
  /\ (identifiers_in_one_flag (_handle_add_flags Script.py_repr)
        " --identifier " -> False).
Proof.
  split; [reflexivity |]. split; [reflexivity |]. split; [reflexivity |].
  intros H.
  destruct (H "calibredb add" Script.book_two_identifiers
              [("isbn", "123"); ("x", "y")] eq_refl)
    as [out [Hout Hend]]; [discriminate |].
  vm_compute in Hout. injection Hout as <-.
  vm_compute in Hend. discriminate Hend.
Qed.

Lemma identifiers_flags_are_terminal_witness :
  getattr Script.book_two_identifiers identifiers
  = VDict [("isbn", "123"); ("x", "y")]
  /\ forall book' : Book,
       (forall a, In a [authors; cover; identifiers] ->
                  getattr book' a = getattr Script.book_two_identifiers a) ->
       _handle_add_flags Script.py_repr "calibredb add" (Some book')
       = _handle_add_flags Script.py_repr "calibredb add"
           (Some Script.book_two_identifiers).
Proof.
  split; [reflexivity |].
  refine (proj1 (proj2 (proj2
            (identifiers_flags_are_terminal Script.py_repr
               Script.book_two_identifiers [("isbn", "123"); ("x", "y")]
               "calibredb add" eq_refl _)))).
  discriminate.
Defined.

Lemma add_outcome_priority_witness :
  BOOK_ADDED_REGEX "Added book ids: 7" = Some "7"
  /\ fst (_run_add Script.subprocess_run Script.shlex_split Script.py_repr
            "calibredb add --empty" None "ignore"
            (Script.fresh Script.conflict_answer))
     = Raise (already_exists "Added book ids: 7").
Proof.
  split; [reflexivity |].
  refine (proj1
            (add_outcome_priority Script.subprocess_run Script.shlex_split
               Script.py_repr (Script.fresh Script.conflict_answer)
               "calibredb add --empty" None "ignore"
               "calibredb add --empty --automerge=ignore"
               ["calibredb"; "add"; "--empty"; "--automerge=ignore"]
               "Added book ids: 7"
               "The following books were not added as they already exist"
               [] eq_refl eq_refl eq_refl eq_refl) eq_refl).
Defined.

Lemma run_releases_mutex_witness :
  mutex (Script.fresh []) = false
  /\ mutex (snd (_run Script.subprocess_run Script.shlex_split
                   "calibredb --version" (Script.fresh []))) = false.
Proof.
  split; [reflexivity |].
  exact (proj1 (proj2
           (run_releases_mutex Script.subprocess_run Script.shlex_split
              (Script.fresh []) "calibredb --version" eq_refl))).
Defined.

Lemma nonpositive_id_rejected_witness :
  (0 <= 0)%Z
  /\ Script.set_metadata 0 None None (Script.fresh [])
     = (Raise (rejected_id 0), Script.fresh []).
Proof.
  split; [lia |].
  refine (proj2 (proj2 (proj2 (proj2
            (nonpositive_id_rejected Script.subprocess_run Script.path_exists
               Script.shlex_split Script.json_loads Script.Book_init
               Script.py_repr Script.cdb_with_lib (Script.fresh []) 0
               false false "" None None _))))).
  lia.
Defined.

(** C6, the claim as stated fails: with neither a record nor a path,
    [set_metadata] on a record that does not exist returns -1 and raises
    nothing; on a record that exists it raises the rejected-input error only
    after the external tool has been run for the list query. *)
Lemma set_metadata_runs_before_rejecting :
  fst (Script.set_metadata 1 None None (Script.fresh [Exited 0 "[]" ""]))
  = Return (-1)%Z
  /\ fst (Script.set_metadata 1 None None
            (Script.fresh [Exited 0 "[{}]" ""]))
     = Raise (ValueError "No metadata given for update")
  /\ calls (snd (Script.set_metadata 1 None None
                   (Script.fresh [Exited 0 "[{}]" ""])))
     = [Acquire;
        Subprocess ["calibredb"; "--with-library"; "/lib"; "list";
                    "--for-machine"; "--fields=all"; "--search=id:1";
                    "--limit=1"];
        Release].
Proof. repeat split; vm_compute; reflexivity. Qed.

Lemma set_metadata_checks_existence_first_witness :
  Script.get_book 1 (Script.fresh [Exited 0 "[]" ""])
  = (Return None, snd (Script.get_book 1 (Script.fresh [Exited 0 "[]" ""])))
  /\ Script.set_metadata 1 (Some Script.book_authors_tags) None
       (Script.fresh [Exited 0 "[]" ""])
     = (Return (-1)%Z,
        snd (Script.get_book 1 (Script.fresh [Exited 0 "[]" ""]))).
Proof.
  split; [reflexivity |].
  refine (proj1
            (set_metadata_checks_existence_first Script.subprocess_run
               Script.path_exists Script.shlex_split Script.json_loads
               Script.Book_init Script.py_repr Script.cdb_with_lib
               (Script.fresh [Exited 0 "[]" ""])
               (snd (Script.get_book 1 (Script.fresh [Exited 0 "[]" ""])))
               1 _ eq_refl) eq_refl (Some Script.book_authors_tags) None).
  lia.
Defined.

Lemma flag_values_joined_and_quoted_witness :
  _handle_add_flags Script.py_repr "calibredb add"
    (Some Script.book_authors_tags)
  = Ok "calibredb add --authors 'A B & C' --tags x,y".
Proof.
  refine (eq_trans
            (proj1 (flag_values_joined_and_quoted Script.py_repr
                      Script.book_authors_tags "calibredb add" _)) _).
  - intros H. vm_compute in H. discriminate H.
  - vm_compute. reflexivity.
Defined.

Lemma get_book_none_on_unusable_output_witness :
  Script.json_loads "no json" = inr "Expecting value: line 1 column 1 (char 0)"
  /\ fst (Script.get_book 1 (Script.fresh [Exited 0 "no json" ""]))
     = Return None.
Proof.
  split; [reflexivity |].
  refine (proj1
            (get_book_none_on_unusable_output Script.subprocess_run
               Script.shlex_split Script.json_loads Script.Book_init
               Script.cdb_with_lib (Script.fresh [Exited 0 "no json" ""]) 1
               ["calibredb"; "--with-library"; "/lib"; "list";
                "--for-machine"; "--fields=all"; "--search=id:1";
                "--limit=1"]
               "no json" "" [] _ eq_refl eq_refl eq_refl)
            "Expecting value: line 1 column 1 (char 0)" eq_refl).
  lia.
Defined.

Lemma add_format_replace_flag_witness :
  (0 < 3)%Z
  /\ PyStr.contains "--dont-replace" (add_format_arguments 3 true false)
     = true.
Proof.
  split; [lia |].
  refine (proj2
            (add_format_replace_flag Script.subprocess_run Script.shlex_split
               Script.cdb_with_lib (Script.fresh []) 3 true false _)).
  lia.
Defined.

(** ** Trimming and quoting *)

Lemma lstrip_fixed (p : ascii -> bool) (c : ascii) (s : string) :
  p c = false -> PyStr.lstrip_by p (String c s) = String c s.
Proof. intros H. simpl. now rewrite H. Qed.

Lemma rstrip_idempotent (p : ascii -> bool) (s : string) :
  PyStr.rstrip_by p (PyStr.rstrip_by p s) = PyStr.rstrip_by p s.
Proof.
  induction s as [| c s IH]; [reflexivity |].
  simpl. destruct (PyStr.rstrip_by p s) as [| d r] eqn:E.
  - destruct (p c) eqn:Hc; simpl; [reflexivity | now rewrite Hc].
  - change (PyStr.rstrip_by p (String c (String d r)))
      with (match PyStr.rstrip_by p (String d r) with
            | EmptyString => if p c then EmptyString else String c EmptyString
            | r' => String c r'
            end).
    now rewrite IH.
Qed.

(** What [lstrip] leaves is empty or starts with a character that stays. *)
Lemma lstrip_head (p : ascii -> bool) (s : string) :
  match PyStr.lstrip_by p s with
  | EmptyString => True
  | String c _ => p c = false
  end.
Proof.
  induction s as [| c s IH]; simpl; [exact I |].
  destruct (p c) eqn:Hc; [exact IH | exact Hc].
Qed.

(** [rstrip] keeps the first character of a string it does not empty. *)
Lemma rstrip_head (p : ascii -> bool) (c : ascii) (s : string) :
  p c = false -> exists r, PyStr.rstrip_by p (String c s) = String c r.
Proof.
  intros Hc. simpl. destruct (PyStr.rstrip_by p s).
  - rewrite Hc. now exists EmptyString.
  - eexists; reflexivity.
Qed.

Lemma strip_by_idempotent (p : ascii -> bool) (s : string) :
  PyStr.strip_by p (PyStr.strip_by p s) = PyStr.strip_by p s.
Proof.
  unfold PyStr.strip_by.
  pose proof (lstrip_head p s) as Hh.
  destruct (PyStr.lstrip_by p s) as [| c t]; [reflexivity |].
  destruct (rstrip_head p c t Hh) as [r Hr]. rewrite Hr.
  rewrite (lstrip_fixed p c r Hh), <- Hr. apply rstrip_idempotent.
Qed.

Lemma mem_char_lstrip (p : ascii -> bool) (c : ascii) (s : string) :
  PyStr.mem_char c s = false -> PyStr.mem_char c (PyStr.lstrip_by p s) = false.
Proof.
  induction s as [| d s IH]; intros H; simpl in *; [reflexivity |].
  apply orb_false_iff in H. destruct H as [Hd Hs].
  destruct (p d); [now apply IH | simpl; now rewrite Hd, Hs].
Qed.

Lemma mem_char_rstrip (p : ascii -> bool) (c : ascii) (s : string) :
  PyStr.mem_char c s = false -> PyStr.mem_char c (PyStr.rstrip_by p s) = false.
Proof.
  induction s as [| d s IH]; intros H; simpl in *; [reflexivity |].
  apply orb_false_iff in H. destruct H as [Hd Hs]. specialize (IH Hs).
  destruct (PyStr.rstrip_by p s).
  - destruct (p d); simpl; [reflexivity | now rewrite Hd].
  - simpl in *. now rewrite Hd, IH.
Qed.

Lemma replace_char_absent (old : ascii) (new s : string) :
  PyStr.mem_char old s = false -> PyStr.replace_char old new s = s.
Proof.
  induction s as [| d s IH]; intros H; simpl in *; [reflexivity |].
  apply orb_false_iff in H. destruct H as [Hd Hs].
  rewrite Ascii.eqb_sym, Hd, IH by assumption. reflexivity.
Qed.

(** X1: a trimmed value is a fixed point of trimming, so [join_list] gives
    the same text whether or not its elements were trimmed before, and
    [quote] the same argument whether or not its value was. *)
Theorem trimming_twice_changes_nothing (l : list string) (sep s : string) :
  join_list (map PyStr.strip l) sep = join_list l sep
  /\ quote (PyStr.strip s) = quote s.
Proof.
  split.
  - unfold join_list. f_equal. rewrite map_map.
    apply map_ext. intros a. apply strip_by_idempotent.
  - unfold quote. unfold PyStr.strip. now rewrite strip_by_idempotent.
Qed.

(** X2: for a value that holds no single quote, [quote] gives the trimmed
    value between single quotes when a space is left in it, and the trimmed
    value itself when none is. *)
Theorem quote_without_single_quote (s : string) :
  PyStr.mem_char "'" s = false ->
  quote s
  = if PyStr.mem_char " " (PyStr.strip s)
    then "'" ++ PyStr.strip s ++ "'"
    else PyStr.strip s.
Proof.
  intros H. rewrite quote_as_argument. unfold as_argument, shell_quoted.
  destruct (PyStr.mem_char " " (PyStr.strip s)); [| reflexivity].
  rewrite replace_char_absent; [reflexivity |].
  unfold PyStr.strip, PyStr.strip_by.
  now apply mem_char_rstrip, mem_char_lstrip.
Qed.

Lemma quote_without_single_quote_witness :
  quote " A B & C " = "'A B & C'".
Proof.
  exact (quote_without_single_quote " A B & C " eq_refl).
Defined.

(** ** File names *)

Lemma length_append (a b : string) :
  String.length (a ++ b) = (String.length a + String.length b)%nat.
Proof. induction a as [| c a IH]; simpl; [reflexivity | now rewrite IH]. Qed.

Lemma endswith_at_append (suffix stem : string) :
  endswith_at (String.length stem) suffix (stem ++ suffix) = true.
Proof.
  induction stem as [| c stem IH]; simpl; [apply String.eqb_refl | exact IH].
Qed.

Lemma endswith_at_split (n : nat) (suffix s : string) :
  endswith_at n suffix s = true -> exists stem, s = stem ++ suffix.
Proof.
  revert s. induction n as [| n IH]; intros s H; simpl in H.
  - apply String.eqb_eq in H. subst. now exists EmptyString.
  - destruct s as [| c s]; [discriminate |].
    destruct (IH s H) as [stem ->]. now exists (String c stem).
Qed.

(** [endswith] holds exactly of the strings that are a stem followed by the
    suffix. *)
Lemma endswith_iff (suffix s : string) :
  endswith suffix s = true <-> exists stem, s = stem ++ suffix.
Proof.
  unfold endswith. split.
  - intros H. apply andb_true_iff in H. destruct H as [_ H].
    now apply endswith_at_split in H.
  - intros [stem ->]. rewrite length_append. apply andb_true_iff. split.
    + apply Nat.leb_le. lia.
    + replace (String.length stem + String.length suffix
               - String.length suffix)%nat
        with (String.length stem) by lia.
      apply endswith_at_append.
Qed.

Lemma lower_char_idempotent (c : ascii) :
  lower_char (lower_char c) = lower_char c.
Proof. destruct c as [[] [] [] [] [] [] [] []]; reflexivity. Qed.

Lemma lower_idempotent (s : string) : lower (lower s) = lower s.
Proof.
  induction s as [| c s IH]; simpl; [reflexivity |].
  now rewrite lower_char_idempotent, IH.
Qed.

Lemma prefix_nil (s : string) : prefix EmptyString s = true.
Proof. destruct s; reflexivity. Qed.

Lemma hyphen_lower (s : string) : prefix "-" (lower s) = prefix "-" s.
Proof.
  destruct s as [| c s]; [reflexivity |].
  destruct c as [[] [] [] [] [] [] [] []];
    try reflexivity.
  change (prefix EmptyString (lower s) = prefix EmptyString s).
  now rewrite !prefix_nil.
Qed.

(** X3: [allowed_file] accepts exactly the names that do not start with a
    hyphen and whose lower-cased form is a stem (possibly empty) followed
    by one of the allowed extensions. *)
Theorem allowed_file_iff (filename : string) :
  allowed_file filename = true
  <-> prefix "-" filename = false
      /\ exists ext stem,
           In ext ALLOWED_FILE_EXTENSIONS /\ lower filename = stem ++ ext.
Proof.
  unfold allowed_file. split.
  - destruct (prefix "-" filename); [discriminate |].
    intros H. split; [reflexivity |].
    apply existsb_exists in H. destruct H as [ext [Hin Hend]].
    apply endswith_iff in Hend. destruct Hend as [stem Hs].
    now exists ext, stem.
  - intros [-> [ext [stem [Hin Hs]]]].
    apply existsb_exists. exists ext. split; [assumption |].
    apply endswith_iff. now exists stem.
Qed.

(** X4: [allowed_file] does not look at the case of the letters: two names
    with the same lower-cased form are both accepted or both refused. *)
Theorem allowed_file_ignores_case (a b : string) :
  lower a = lower b -> allowed_file a = allowed_file b.
Proof.
  intros H. unfold allowed_file.
  rewrite <- (hyphen_lower a), <- (hyphen_lower b), H. reflexivity.
Qed.

Lemma allowed_file_ignores_case_witness :
  allowed_file "Book.EPUB" = allowed_file "book.epub".
Proof. exact (allowed_file_ignores_case "Book.EPUB" "book.epub" eq_refl). Defined.

(** ** The version pattern *)

Lemma span_spec (p : ascii -> bool) (s : string) :
  s = fst (PyStr.span p s) ++ snd (PyStr.span p s)
  /\ PyStr.forallb_str p (fst (PyStr.span p s)) = true.
Proof.
  induction s as [| c s [IH1 IH2]]; simpl; [now split |].
  destruct (p c) eqn:Hc; [| now split].
  destruct (PyStr.span p s) as [a b]; simpl in *.
  split; [now rewrite IH1 at 1 | now rewrite Hc].
Qed.

Lemma prefix_drop (lit s : string) :
  prefix lit s = true -> s = lit ++ PyStr.drop (String.length lit) s.
Proof.
  revert s. induction lit as [| a lit IH]; intros s H; [reflexivity |].
  destruct s as [| b s]; simpl in H; [discriminate |].
  destruct (ascii_dec a b) as [-> | ]; [| discriminate].
  simpl. f_equal. now apply IH.
Qed.

(** A match of [^lit([class]+)] is not empty, is made of characters of the
    class, and follows the literal at the start of the text. *)
Lemma search_lit_class_sound (lit : string) (cls : ascii -> bool)
  (s g : string) :
  search_lit_class lit cls s = Some g ->
  g <> EmptyString
  /\ PyStr.forallb_str cls g = true
  /\ prefix (lit ++ g) s = true.
Proof.
  unfold search_lit_class. destruct (prefix lit s) eqn:Hp; [| discriminate].
  pose proof (span_spec cls (PyStr.drop (String.length lit) s)) as [Hs Hall].
  destruct (fst (PyStr.span cls (PyStr.drop (String.length lit) s)))
    as [| c r] eqn:E; [discriminate |].
  intros H. injection H as <-.
  try rewrite E in Hs. try rewrite E in Hall.
  split; [discriminate |]. split; [exact Hall |].
  rewrite (prefix_drop lit s Hp), Hs.
  rewrite <- append_assoc. apply prefix_app.
Qed.

Lemma version_regex_sound (s v : string) :
  CALIBRE_VERSION_REGEX s = Some v ->
  v <> EmptyString
  /\ PyStr.forallb_str version_char v = true
  /\ PyStr.contains ("calibre " ++ v) s = true.
Proof.
  induction s as [| c s IH]; intros H.
  - simpl in H. discriminate.
  - unfold CALIBRE_VERSION_REGEX in H; fold CALIBRE_VERSION_REGEX in H.
    destruct (search_lit_class "calibre "
                (fun c0 => PyStr.is_digit c0 || Ascii.eqb c0 ".")
                (String c s)) as [g |] eqn:E.
    + injection H as <-.
      destruct (search_lit_class_sound _ _ _ _ E) as [Hne [Hall Hp]].
      split; [assumption |]. split; [exact Hall |].
      now apply prefix_contains.
    + destruct (IH H) as [Hne [Hall Hc]].
      split; [assumption |]. split; [assumption |].
      unfold PyStr.contains; fold PyStr.contains.
      rewrite Hc. apply orb_true_r.
Qed.

Lemma version_regex_none (s : string) :
  PyStr.contains "calibre " s = false -> CALIBRE_VERSION_REGEX s = None.
Proof.
  induction s as [| c s IH]; intros H.
  - reflexivity.
  - unfold PyStr.contains in H; fold PyStr.contains in H.
    apply orb_false_iff in H. destruct H as [Hp Hc].
    unfold CALIBRE_VERSION_REGEX; fold CALIBRE_VERSION_REGEX.
    unfold search_lit_class. rewrite Hp. now apply IH.
Qed.

(** ** The rest of the operations *)

Section RestFacts.

Context {World : Type}.
Variable subprocess_run : World -> list string -> run_result * World.
Variable path_exists : World -> string -> bool.
Variable shlex_split : string -> result (list string).
Variable json_loads : string -> json + string.
Variable Book_init : list (string * json) -> result Book.
Variable Book_bool : Book -> bool.
Variable py_repr : value -> string.
Variable cdb : string.
Variable cdb_with_lib : string.

Local Notation run := (_run subprocess_run shlex_split).
Local Notation get_book' :=
  (get_book subprocess_run shlex_split json_loads Book_init cdb_with_lib).
Local Notation get_books' :=
  (get_books subprocess_run shlex_split json_loads Book_init cdb_with_lib).
Local Notation remove' := (remove subprocess_run shlex_split cdb_with_lib).
Local Notation version' := (version subprocess_run shlex_split cdb).
Local Notation run_add := (_run_add subprocess_run shlex_split py_repr).
Local Notation add_one' :=
  (add_one subprocess_run path_exists shlex_split py_repr cdb_with_lib).
Local Notation set_metadata' :=
  (set_metadata subprocess_run path_exists shlex_split json_loads Book_init
     py_repr cdb_with_lib).
Local Notation delete_book' :=
  (delete_book subprocess_run shlex_split json_loads Book_init Book_bool
     cdb_with_lib).

(** X5: [get_books] with a limit that is zero or negative raises the
    rejected-input error and leaves the state as it was: the tool is not
    run. *)
Theorem get_books_rejects_limit (st : state World) (limit : Z) :
  (limit <= 0)%Z ->
  get_books' limit st
  = (Raise (ValueError ("limit " ++ PyStr.str_int limit ++ " not allowed")),
     st).
Proof.
  intros H. unfold get_books.
  destruct (Z.leb_spec limit 0); [reflexivity | lia].
Qed.

Lemma get_books_runs_list (st : state World) (limit : Z) :
  (0 < limit)%Z ->
  get_books' limit st
  = bind (run (list_command cdb_with_lib limit))
      (fun process =>
         match json_loads (fst process) with
         | inr exc => raise (JSONDecodeError exc)
         | inl books =>
             bind (lift (py_len books))
               (fun n =>
                  if negb (n =? 0)%nat then
                    bind (lift (py_iter books))
                      (fun items =>
                         lift (map_result (Book_kwargs Book_init) items))
                  else ret [])
         end) st.
Proof.
  intros H. unfold get_books.
  destruct (Z.leb_spec limit 0); [lia |].
  unfold list_command. reflexivity.
Qed.



(** X7: output of the list query that does not decode as JSON makes
    [get_books] raise the decoding error, where [get_book] on the same
    output returns [None]. *)
Theorem get_books_raises_decode_error (st : state World) (limit : Z)
  (argv : list string) (out err exc : string) (w : World) :
  (0 < limit)%Z ->
  mutex st = false ->
  shlex_split (list_command cdb_with_lib limit) = Ok argv ->
  subprocess_run (world st) argv = (Exited 0 out err, w) ->
  json_loads out = inr exc ->
  fst (get_books' limit st) = Raise (JSONDecodeError exc).
Proof.
  intros Hl Hm Hs Hr Hj.
  rewrite get_books_runs_list by assumption.
  unfold bind at 1. rewrite (run_returns _ _ _ _ _ _ _ _ Hm Hs Hr).
  cbn [fst]. rewrite Hj. reflexivity.
Qed.

(** X8: [remove] with an id below zero anywhere in the list raises the
    rejected-input error, which prints the whole list, and leaves the state
    as it was: the tool is not run for any of the ids. *)
Theorem remove_rejects_negative (st : state World) (ids : list Z)
  (permanent : bool) (i : Z) :
  In i ids ->
  (i < 0)%Z ->
  remove' ids permanent st
  = (Raise (ValueError ("ids " ++ str_int_list ids ++ " not allowed")), st).
Proof.
  intros Hin Hneg. unfold remove.
  destruct (forallb (fun i0 => (i0 >=? 0)%Z) ids) eqn:E; [| reflexivity].
  rewrite forallb_forall in E. specialize (E i Hin).
  apply Z.geb_le in E. lia.
Qed.

(** X9: [remove] accepts every list without a negative id, the id zero and
    the empty list included, and runs one command: the ids joined with
    commas after [remove], then [--permanent] when asked; it returns the
    tool's stdout. *)
Theorem remove_runs_one_command (st : state World) (ids : list Z)
  (permanent : bool) :
  Forall (fun i => (0 <= i)%Z) ids ->
  remove' ids permanent st
  = bind (run (remove_command cdb_with_lib ids permanent))
      (fun process => ret (fst process)) st.
Proof.
  intros Hall. unfold remove.
  assert (E : forallb (fun i => (i >=? 0)%Z) ids = true).
  { apply forallb_forall. intros i Hi. rewrite Forall_forall in Hall.
    apply Z.geb_le. now apply Hall. }
  rewrite E. cbn [negb]. unfold remove_command.
  destruct permanent; rewrite ?append_nil_r;
    repeat rewrite append_assoc; reflexivity.
Qed.

(** X10: when the version query has run, a version returned by [version] is
    not empty, is made of digits and dots only, and stands in the tool's
    output right after the word calibre and a space. *)
Theorem version_is_read_from_output (st : state World) (argv : list string)
  (out err v : string) (w : World) :
  mutex st = false ->
  shlex_split (cdb ++ " --version") = Ok argv ->
  subprocess_run (world st) argv = (Exited 0 out err, w) ->
  fst (version' st) = Return (Some v) ->
  v <> EmptyString
  /\ PyStr.forallb_str version_char v = true
  /\ PyStr.contains ("calibre " ++ v) out = true.
Proof.
  intros Hm Hs Hr Hv. unfold version in Hv.
  unfold bind at 1 in Hv. rewrite (run_returns _ _ _ _ _ _ _ _ Hm Hs Hr) in Hv.
  cbn [fst] in Hv.
  destruct (CALIBRE_VERSION_REGEX out) as [g |] eqn:E.
  - injection Hv as <-. now apply version_regex_sound.
  - discriminate Hv.
Qed.

(** X11: when the output of the version query does not hold the word calibre
    followed by a space, [version] returns [None] and writes an error
    record; it does not raise. *)
Theorem version_none_when_absent (st : state World) (argv : list string)
  (out err : string) (w : World) :
  mutex st = false ->
  shlex_split (cdb ++ " --version") = Ok argv ->
  subprocess_run (world st) argv = (Exited 0 out err, w) ->
  PyStr.contains "calibre " out = false ->
  fst (version' st) = Return None
  /\ In (SelfLogger, ERROR, "failed to parse calibredb version")
       (records (snd (version' st))).
Proof.
  intros Hm Hs Hr Hc. unfold version.
  unfold bind at 1. unfold bind at 2.
  rewrite (run_returns _ _ _ _ _ _ _ _ Hm Hs Hr).
  cbn [fst]. rewrite (version_regex_none out Hc).
  split; [reflexivity |].
  unfold bind, log, ret. cbn [fst snd records].
  apply in_or_app. right. left. reflexivity.
Qed.

(** X12: [add_one] for a path at which no file exists raises
    [FileNotFoundError] and leaves the state as it was: nothing is logged
    and the tool is not run. *)
Theorem add_one_missing_file (st : state World) (book_path : string)
  (book : option Book) (automerge : string) :
  path_exists (world st) book_path = false ->
  add_one' book_path book automerge st
  = (Raise (FileNotFoundError ("Failed to find book at " ++ book_path)), st).
Proof.
  intros H. unfold add_one, bind, os_path_exists. rewrite H. reflexivity.
Qed.

(** What [get_book] gives when the output of the list query decodes to a
    list, and the state it leaves. *)
Lemma get_book_on_list (st : state World) (n : Z) (argv : list string)
  (out err : string) (w : World) (l : list json) :
  (0 < n)%Z ->
  mutex st = false ->
  shlex_split (list_one_command cdb_with_lib n) = Ok argv ->
  subprocess_run (world st) argv = (Exited 0 out err, w) ->
  json_loads out = inl (JList l) ->
  get_book' n st
  = (match l with
     | [x] =>
         match Book_kwargs Book_init x with
         | Ok b => Return (Some b)
         | Err e => Raise e
         end
     | _ => Return None
     end,
     mkState false
       (records st ++ running (list_one_command cdb_with_lib n) ::
          (if String.eqb err "" then [] else [(SelfLogger, WARNING, err)]))
       (calls st ++ [Acquire; Subprocess argv; Release]) w).
Proof.
  intros Hn Hm Hs Hr Hj.
  rewrite get_book_runs_list by assumption.
  unfold bind at 1. rewrite (run_returns _ _ _ _ _ _ _ _ Hm Hs Hr).
  cbn [fst]. rewrite Hj.
  unfold bind, lift, ret, raise. cbn [py_len py_first].
  destruct l as [| x [| y l']]; try reflexivity.
  cbn [List.length Nat.eqb].
  destruct (Book_kwargs Book_init x); reflexivity.
Qed.

(** X13: for a positive id, when the list query has run and its output
    decodes to a list with exactly one record, [get_book] returns the book
    the [Book] constructor builds from the members of that record. *)
Theorem get_book_returns_single_record (st : state World) (n : Z)
  (argv : list string) (out err : string) (w : World)
  (members : list (string * json)) (b : Book) :
  (0 < n)%Z ->
  mutex st = false ->
  shlex_split (list_one_command cdb_with_lib n) = Ok argv ->
  subprocess_run (world st) argv = (Exited 0 out err, w) ->
  json_loads out = inl (JList [JObj members]) ->
  Book_init members = Ok b ->
  fst (get_book' n st) = Return (Some b).
Proof.
  intros Hn Hm Hs Hr Hj Hb.
  rewrite (get_book_on_list st n argv out err w _ Hn Hm Hs Hr Hj).
  cbn [fst Book_kwargs]. now rewrite Hb.
Qed.

(** X14: output of the list query that decodes to something other than a
    list is not taken for a missing book: for [null], a number or a boolean
    [get_book] raises [TypeError] (they have no length), and for an object
    with one member it raises [KeyError] (the object has no key 0). *)
Theorem get_book_raises_on_other_json (st : state World) (n : Z)
  (argv : list string) (out err : string) (w : World) (b : json) :
  (0 < n)%Z ->
  mutex st = false ->
  shlex_split (list_one_command cdb_with_lib n) = Ok argv ->
  subprocess_run (world st) argv = (Exited 0 out err, w) ->
  json_loads out = inl b ->
  ((b = JNull \/ (exists i, b = JInt i) \/ (exists r, b = JFloat r)
    \/ (exists t, b = JBool t)) ->
   exists msg, fst (get_book' n st) = Raise (TypeError msg))
  /\ (forall k v, b = JObj [(k, v)] ->
      fst (get_book' n st) = Raise (KeyError "0")).
Proof.
  intros Hn Hm Hs Hr Hj.
  assert (Hgo : fst (get_book' n st)
                = fst (bind (lift (py_len b))
                         (fun len =>
                            if (len =? 1)%nat then
                              bind (lift (py_first b))
                                (fun b0 =>
                                   bind (lift (Book_kwargs Book_init b0))
                                     (fun book => ret (Some book)))
                            else ret None)
                         (mkState false
                            (records st
                               ++ running (list_one_command cdb_with_lib n)
                               :: (if String.eqb err "" then []
                                   else [(SelfLogger, WARNING, err)]))
                            (calls st ++ [Acquire; Subprocess argv; Release])
                            w))).
  { rewrite get_book_runs_list by assumption.
    unfold bind at 1. rewrite (run_returns _ _ _ _ _ _ _ _ Hm Hs Hr).
    cbn [fst]. now rewrite Hj. }
  rewrite Hgo. split.
  - intros [-> | [[i ->] | [[r ->] | [t ->]]]]; eexists; reflexivity.
  - intros k v ->. reflexivity.
Qed.

(** X15: when the add command exits with a status other than zero, [_run_add]
    raises the error of [_run], the concurrency error when stderr matches
    the pattern of a running calibre program and the runtime error
    otherwise; the output is not searched for added, merged or existing
    books. *)
Theorem run_add_raises_on_failed_exit (st : state World) (cmd : string)
  (book : option Book) (automerge cmd1 : string) (argv : list string)
  (rc : Z) (out stderr : string) (w : World) :
  mutex st = false ->
  _handle_add_flags py_repr
    (cmd ++ " --automerge=" ++ automerge_policy automerge) book = Ok cmd1 ->
  shlex_split cmd1 = Ok argv ->
  subprocess_run (world st) argv = (Exited rc out stderr, w) ->
  rc <> 0%Z ->
  fst (run_add cmd book automerge st)
  = Raise (if CONCURRENCY_ERR_REGEX stderr
           then CalibreConcurrencyError argv rc
           else CalibreRuntimeError argv rc out stderr).
Proof.
  intros Hm Hf Hs Hr Hrc. unfold automerge_policy in Hf.
  assert (Hz : (rc =? 0)%Z = false) by now apply Z.eqb_neq.
  unfold _run_add.
  destruct (in_list automerge AUTOMERGE_VALID_VALUES) eqn:Hin.
  - unfold bind at 1. unfold ret at 1. unfold bind at 1. rewrite Hf.
    unfold lift at 1, ret at 1. unfold bind at 1.
    rewrite run_unlocked by assumption. rewrite Hs. cbv zeta.
    rewrite Hr, Hz. cbn [fst reraised].
    destruct (CONCURRENCY_ERR_REGEX stderr); reflexivity.
  - change (cmd ++ " --automerge=" ++ "ignore")
      with (cmd ++ " --automerge=ignore") in Hf.
    unfold bind at 1. unfold bind at 1. unfold log at 1.
    unfold ret at 1. unfold bind at 1. rewrite Hf.
    unfold lift at 1, ret at 1. unfold bind at 1.
    rewrite run_unlocked by assumption. rewrite Hs. cbv zeta.
    cbn [world]. rewrite Hr, Hz. cbn [fst reraised].
    destruct (CONCURRENCY_ERR_REGEX stderr); reflexivity.
Qed.

Lemma set_metadata_after_check (st st1 : state World) (n : Z) (found : Book)
  (book : option Book) (metadata_path : option string) :
  (0 < n)%Z ->
  get_book' n st = (Return (Some found), st1) ->
  set_metadata' n book metadata_path st
  = bind
      (match metadata_path, book with
       | Some (String c p), _ =>
           bind (os_path_exists path_exists (String c p))
             (fun present =>
                if negb present
                then raise (FileNotFoundError
                              ("Metadata file " ++ String c p
                                 ++ " does not exist"))
                else ret ((cdb_with_lib ++ " set_metadata "
                             ++ PyStr.str_int n) ++ " " ++ String c p))
       | _, Some bk =>
           lift (_handle_update_flags py_repr
                   (cdb_with_lib ++ " set_metadata " ++ PyStr.str_int n)
                   (Some bk))
       | _, None => raise (ValueError "No metadata given for update")
       end)
      (fun cmd => bind (run cmd) (fun _ => ret n)) st1.
Proof.
  intros Hn Hg. unfold set_metadata, bind at 1.
  rewrite (validate_id_accepts n Hn).
  cbn [lift ret]. cbv beta iota. unfold bind at 1. rewrite Hg.
  reflexivity.
Qed.

(** X16: when the record exists and a non-empty metadata path is given,
    [set_metadata] does not look at the book it was given: if no file is at
    the path it raises [FileNotFoundError] with nothing run after the
    existence check, and if the file is there it runs [set_metadata <id>
    <path>] and returns the id. *)
Theorem set_metadata_path_comes_first (st st1 : state World) (n : Z)
  (found : Book) (book : option Book) (c : ascii) (p : string) :
  (0 < n)%Z ->
  get_book' n st = (Return (Some found), st1) ->
  (path_exists (world st1) (String c p) = false ->
   set_metadata' n book (Some (String c p)) st
   = (Raise (FileNotFoundError
               ("Metadata file " ++ String c p ++ " does not exist")), st1))
  /\ (path_exists (world st1) (String c p) = true ->
      set_metadata' n book (Some (String c p)) st
      = bind (run (cdb_with_lib ++ " set_metadata " ++ PyStr.str_int n
                     ++ " " ++ String c p))
          (fun _ => ret n) st1).
Proof.
  intros Hn Hg.
  rewrite (set_metadata_after_check st st1 n found book _ Hn Hg).
  split; intros Hp.
  - unfold bind at 1. unfold bind at 1. unfold os_path_exists at 1.
    rewrite Hp. reflexivity.
  - unfold bind at 1. unfold bind at 1. unfold os_path_exists at 1.
    rewrite Hp. cbn [negb ret].
    repeat rewrite append_assoc. reflexivity.
Qed.

(** X17: when the record exists and the update command exits with status
    zero, [set_metadata] returns the id whatever the tool printed on stdout
    and stderr: success is not read from the output. *)
Theorem set_metadata_reports_success (st st1 : state World) (n : Z)
  (found book : Book) (cmd2 : string) (argv2 : list string)
  (out2 err2 : string) (w2 : World) :
  (0 < n)%Z ->
  get_book' n st = (Return (Some found), st1) ->
  mutex st1 = false ->
  _handle_update_flags py_repr
    (cdb_with_lib ++ " set_metadata " ++ PyStr.str_int n) (Some book)
  = Ok cmd2 ->
  shlex_split cmd2 = Ok argv2 ->
  subprocess_run (world st1) argv2 = (Exited 0 out2 err2, w2) ->
  fst (set_metadata' n (Some book) None st) = Return n.
Proof.
  intros Hn Hg Hm Hf Hs Hr.
  rewrite (set_metadata_after_check st st1 n found _ _ Hn Hg).
  unfold bind at 1. rewrite Hf. cbn [lift ret]. cbv beta iota.
  unfold bind at 1. rewrite (run_returns _ _ _ _ _ _ _ _ Hm Hs Hr).
  reflexivity.
Qed.

(** *** The mutex is free between operations *)












(** X19: while the mutex is held, [_run] waits: it does not come back and the
    external tool is not run. *)
Theorem run_waits_for_mutex (st : state World) (cmd : string) :
  mutex st = true ->
  fst (run cmd st) = Blocked
  /\ calls (snd (run cmd st)) = calls st
  /\ world (snd (run cmd st)) = world st.
Proof.
  intros Hm.
  unfold _run, bind, try_finally, try_except, mutex_acquire, log, lift.
  simpl. rewrite Hm. simpl. repeat split; reflexivity.
Qed.

Lemma remove_accepted (st : state World) (ids : list Z) (permanent : bool) :
  Forall (fun i => (0 <= i)%Z) ids ->
  remove' ids permanent st
  = bind (run (remove_command cdb_with_lib ids permanent))
      (fun process => ret (fst process)) st.
Proof.
  intros Hall. unfold remove.
  assert (E : forallb (fun i => (i >=? 0)%Z) ids = true).
  { apply forallb_forall. intros i Hi. rewrite Forall_forall in Hall.
    apply Z.geb_le. now apply Hall. }
  rewrite E. cbn [negb]. unfold remove_command.
  destruct permanent; rewrite ?append_nil_r;
    repeat rewrite append_assoc; reflexivity.
Qed.

(** X20: [delete_book] for a negative id is refused by [remove] before
    anything is run.  For the id zero [remove] accepts the id and the tool
    is run to remove it; only then does [get_book] refuse the id, so the
    rejected-input error comes after the removal was carried out. *)
Theorem delete_book_at_the_boundary (st : state World) (n : Z)
  (argv : list string) (out err : string) (w : World) :
  (n <= 0)%Z ->
  mutex st = false ->
  ((n < 0)%Z ->
   delete_book' n st
   = (Raise (ValueError ("ids " ++ str_int_list [n] ++ " not allowed")), st))
  /\ (n = 0%Z ->
      shlex_split (remove_command cdb_with_lib [0%Z] false) = Ok argv ->
      subprocess_run (world st) argv = (Exited 0 out err, w) ->
      fst (delete_book' n st) = Raise (rejected_id 0)
      /\ calls (snd (delete_book' n st))
         = (calls st ++ [Acquire; Subprocess argv; Release])%list).
Proof.
  intros Hn Hm. split.
  - intros Hneg. unfold delete_book, bind at 1, remove.
    assert (E : (n >=? 0)%Z = false).
    { destruct (n >=? 0)%Z eqn:E; [apply Z.geb_le in E; lia | reflexivity]. }
    cbn [forallb]. rewrite E. reflexivity.
  - intros -> Hs Hr.
    remember (delete_book' 0 st) as r eqn:Er.
    unfold delete_book in Er. unfold bind at 1 in Er.
    rewrite remove_accepted in Er by (repeat constructor; lia).
    unfold bind at 1 in Er.
    rewrite (run_returns _ _ _ _ _ _ _ _ Hm Hs Hr) in Er.
    cbn [ret] in Er. cbv beta iota in Er. unfold bind at 1 in Er.
    unfold get_book at 1 in Er. unfold bind at 1 in Er.
    change (validate_id 0) with (Err (A := unit) (rejected_id 0)) in Er.
    cbn [lift raise] in Er. cbv beta iota in Er.
    subst r. split; reflexivity.
Qed.

(** X21: [delete_book] for a positive id runs two commands, the removal and
    then the list query, taking and releasing the mutex around each.  When
    the query finds no record the answer is status 200 with an empty body;
    when it still finds the record, [abort] raises the error of status
    500. *)
Theorem delete_book_checks_after_removing (st : state World) (n : Z)
  (argv1 argv2 : list string) (out1 err1 out2 err2 : string) (w1 w2 : World)
  (l : list json) :
  (0 < n)%Z ->
  mutex st = false ->
  shlex_split (remove_command cdb_with_lib [n] false) = Ok argv1 ->
  subprocess_run (world st) argv1 = (Exited 0 out1 err1, w1) ->
  shlex_split (list_one_command cdb_with_lib n) = Ok argv2 ->
  subprocess_run w1 argv2 = (Exited 0 out2 err2, w2) ->
  json_loads out2 = inl (JList l) ->
  calls (snd (delete_book' n st))
  = (calls st ++ [Acquire; Subprocess argv1; Release;
                  Acquire; Subprocess argv2; Release])%list
  /\ (l = [] -> fst (delete_book' n st) = Return (response 200 ""))
  /\ (forall members b,
        l = [JObj members] ->
        Book_init members = Ok b ->
        Book_bool b = true ->
        fst (delete_book' n st)
        = Raise (HTTPException 500
                   ("book " ++ PyStr.str_int n ++ " was not deleted"))).
Proof.
  intros Hn Hm Hs1 Hr1 Hs2 Hr2 Hj.
  remember (delete_book' n st) as r eqn:Er.
  unfold delete_book in Er. unfold bind at 1 in Er.
  rewrite remove_accepted in Er by (repeat constructor; lia).
  unfold bind at 1 in Er.
  rewrite (run_returns _ _ _ _ _ _ _ _ Hm Hs1 Hr1) in Er.
  cbn [ret] in Er. cbv beta iota in Er. unfold bind at 1 in Er.
  match type of Er with
  | context [get_book _ _ _ _ _ n ?s] =>
      rewrite (get_book_on_list s n argv2 out2 err2 w2 l Hn eq_refl Hs2 Hr2
                 Hj) in Er
  end.
  subst r. split; [| split].
  - destruct l as [| x [| y l']]; cbn [snd calls];
      try (rewrite <- app_assoc; reflexivity).
    destruct (Book_kwargs Book_init x) as [b |]; cbn [snd calls].
    + destruct (Book_bool b); cbn [snd calls raise ret];
        rewrite <- app_assoc; reflexivity.
    + rewrite <- app_assoc; reflexivity.
  - intros ->. reflexivity.
  - intros members b -> Hb Ht. cbn [Book_kwargs]. rewrite Hb.
    cbv beta iota. rewrite Ht. reflexivity.
Qed.

End RestFacts.

(** ** More on the builders *)

Section BuilderEdges.

Variable py_repr : value -> string.

Lemma add_loop_unpopulated (l : list (attr * string)) (book : Book)
  (cmd : string) :
  (forall a, truthy (getattr book a) = false) ->
  add_flags_loop py_repr l book cmd = Ok cmd.
Proof.
  intros H. induction l as [| [flag name] l IH]; [reflexivity |].
  cbn [add_flags_loop]. now rewrite H.
Qed.

Lemma update_loop_unpopulated (l : list attr) (book : Book) (cmd : string) :
  (forall a, truthy (getattr book a) = false) ->
  update_flags_loop py_repr l book cmd = Ok cmd.
Proof.
  intros H. induction l as [| field l IH]; [reflexivity |].
  cbn [update_flags_loop]. now rewrite H.
Qed.

(** X22: for a record none of whose fields is populated (each is [None],
    empty or zero), both builders return the command they were given, with
    no flag added; so does a call without a record. *)
Theorem unpopulated_record_adds_nothing (book : Book) (cmd : string) :
  (forall a, truthy (getattr book a) = false) ->
  _handle_add_flags py_repr cmd (Some book) = Ok cmd
  /\ _handle_update_flags py_repr cmd (Some book) = Ok cmd
  /\ _handle_add_flags py_repr cmd None = Ok cmd
  /\ _handle_update_flags py_repr cmd None = Ok cmd.
Proof.
  intros H. split; [| split; [| split]].
  - now apply add_loop_unpopulated.
  - now apply update_loop_unpopulated.
  - reflexivity.
  - reflexivity.
Qed.

(** X23: each builder reads only the fields of its own table.  The add
    command does not change with the record's author_sort, comments, id,
    pubdate, publisher, rating, size or timestamp; the set_metadata command
    does not change with its cover or its isbn. *)
Theorem builders_read_only_their_tables (book : Book) (cmd : string)
  (v : value) :
  (forall a,
     In a [author_sort; comments; id; pubdate; publisher; rating; size;
           timestamp] ->
     _handle_add_flags py_repr cmd (Some (Book_with book a v))
     = _handle_add_flags py_repr cmd (Some book))
  /\ (forall a,
        In a [cover; isbn] ->
        _handle_update_flags py_repr cmd (Some (Book_with book a v))
        = _handle_update_flags py_repr cmd (Some book)).
Proof.
  split; intros a Ha.
  - unfold _handle_add_flags. apply add_loop_ext.
    intros a' Ha'. unfold getattr, Book_with.
    cbn [ADD_FLAGS map fst In] in Ha, Ha'.
    repeat (destruct Ha as [<- | Ha]; [| try contradiction]);
      repeat (destruct Ha' as [<- | Ha']; [| try contradiction]);
      reflexivity.
  - unfold _handle_update_flags. apply update_loop_ext.
    intros a' Ha'. unfold getattr, Book_with.
    cbn [UPDATE_FLAGS In] in Ha, Ha'.
    repeat (destruct Ha as [<- | Ha]; [| try contradiction]);
      repeat (destruct Ha' as [<- | Ha']; [| try contradiction]);
      reflexivity.
Qed.

End BuilderEdges.

(** ** The rest of the code run on concrete inputs *)

Lemma get_books_rejects_limit_witness :
  ScriptRest.get_books 0 (Script.fresh [])
  = (Raise (ValueError "limit 0 not allowed"), Script.fresh []).
Proof.
  refine (get_books_rejects_limit Script.subprocess_run Script.shlex_split
            Script.json_loads Script.Book_init Script.cdb_with_lib
            (Script.fresh []) 0 _).
  lia.
Defined.


Lemma get_books_raises_decode_error_witness :
  fst (ScriptRest.get_books 10 (Script.fresh [Exited 0 "no json" ""]))
  = Raise (JSONDecodeError "Expecting value: line 1 column 1 (char 0)").
Proof.
  refine (get_books_raises_decode_error Script.subprocess_run
            Script.shlex_split Script.json_loads Script.Book_init
            Script.cdb_with_lib (Script.fresh [Exited 0 "no json" ""]) 10 _
            "no json" "" _ [] _ eq_refl eq_refl eq_refl eq_refl).
  lia.
Defined.

Lemma remove_rejects_negative_witness :
  ScriptRest.remove [1; -2]%Z true (Script.fresh [])
  = (Raise (ValueError "ids [1, -2] not allowed"), Script.fresh []).
Proof.
  refine (remove_rejects_negative Script.subprocess_run Script.shlex_split
            Script.cdb_with_lib (Script.fresh []) [1; -2]%Z true (-2)%Z _ _).
  - simpl. tauto.
  - lia.
Defined.

Lemma remove_runs_one_command_witness :
  ScriptRest.remove [0; 3]%Z true (Script.fresh [])
  = bind (_run Script.subprocess_run Script.shlex_split
            (remove_command Script.cdb_with_lib [0; 3]%Z true))
      (fun process => ret (fst process)) (Script.fresh []).
Proof.
  refine (remove_runs_one_command Script.subprocess_run Script.shlex_split
            Script.cdb_with_lib (Script.fresh []) [0; 3]%Z true _).
  repeat constructor; lia.
Defined.

Lemma version_is_read_from_output_witness :
  "6.11.0" <> EmptyString
  /\ PyStr.forallb_str version_char "6.11.0" = true
  /\ PyStr.contains ("calibre " ++ "6.11.0") "calibredb (calibre 6.11.0)"
     = true.
Proof.
  exact (version_is_read_from_output Script.subprocess_run Script.shlex_split
           ScriptRest.cdb
           (Script.fresh [Exited 0 "calibredb (calibre 6.11.0)" ""])
           _ "calibredb (calibre 6.11.0)" "" "6.11.0" []
           eq_refl eq_refl eq_refl eq_refl).
Defined.

Lemma version_none_when_absent_witness :
  fst (ScriptRest.version (Script.fresh [Exited 0 "usage: calibredb" ""]))
  = Return None.
Proof.
  exact (proj1
           (version_none_when_absent Script.subprocess_run Script.shlex_split
              ScriptRest.cdb (Script.fresh [Exited 0 "usage: calibredb" ""])
              _ "usage: calibredb" "" [] eq_refl eq_refl eq_refl eq_refl)).
Defined.

Lemma add_one_missing_file_witness :
  add_one Script.subprocess_run (fun _ _ => false) Script.shlex_split
    Script.py_repr Script.cdb_with_lib "/tmp/book.epub" None "ignore"
    (Script.fresh [])
  = (Raise (FileNotFoundError "Failed to find book at /tmp/book.epub"),
     Script.fresh []).
Proof.
  exact (add_one_missing_file Script.subprocess_run (fun _ _ => false)
           Script.shlex_split Script.py_repr Script.cdb_with_lib
           (Script.fresh []) "/tmp/book.epub" None "ignore" eq_refl).
Defined.

Lemma get_book_returns_single_record_witness :
  fst (Script.get_book 1 (Script.fresh [Exited 0 "[{}]" ""]))
  = Return (Some Book_unset).
Proof.
  refine (get_book_returns_single_record Script.subprocess_run
            Script.shlex_split Script.json_loads Script.Book_init
            Script.cdb_with_lib (Script.fresh [Exited 0 "[{}]" ""]) 1 _
            "[{}]" "" [] [] Book_unset _ eq_refl eq_refl eq_refl eq_refl
            eq_refl).
  lia.
Defined.

Lemma get_book_raises_on_other_json_witness :
  exists msg,
    fst (get_book Script.subprocess_run Script.shlex_split
           (fun _ => inl JNull) Script.Book_init Script.cdb_with_lib 1
           (Script.fresh [Exited 0 "null" ""]))
    = Raise (TypeError msg).
Proof.
  refine (proj1
            (get_book_raises_on_other_json Script.subprocess_run
               Script.shlex_split (fun _ => inl JNull) Script.Book_init
               Script.cdb_with_lib (Script.fresh [Exited 0 "null" ""]) 1 _
               "null" "" [] JNull _ eq_refl eq_refl eq_refl eq_refl)
            (or_introl eq_refl)).
  lia.
Defined.

Lemma run_add_raises_on_failed_exit_witness :
  fst (Script.add_one_empty None "ignore"
         (Script.fresh [Exited 1 "" "Another calibre program is running.."]))
  = Raise (CalibreConcurrencyError
             ["calibredb"; "--with-library"; "/lib"; "add"; "--empty";
              "--automerge=ignore"] 1).
Proof.
  refine (run_add_raises_on_failed_exit Script.subprocess_run
            Script.shlex_split Script.py_repr
            (Script.fresh
               [Exited 1 "" "Another calibre program is running.."])
            (Script.cdb_with_lib ++ " add --empty") None "ignore" _ _ 1 ""
            "Another calibre program is running.." [] eq_refl eq_refl eq_refl
            eq_refl _).
  lia.
Defined.

Lemma set_metadata_path_comes_first_witness :
  set_metadata Script.subprocess_run (fun _ _ => false) Script.shlex_split
    Script.json_loads Script.Book_init Script.py_repr Script.cdb_with_lib 1
    (Some Script.book_authors_tags) (Some "/tmp/m.opf")
    (Script.fresh [Exited 0 "[{}]" ""])
  = (Raise (FileNotFoundError "Metadata file /tmp/m.opf does not exist"),
     snd (Script.get_book 1 (Script.fresh [Exited 0 "[{}]" ""]))).
Proof.
  refine (proj1
            (set_metadata_path_comes_first Script.subprocess_run
               (fun _ _ => false) Script.shlex_split Script.json_loads
               Script.Book_init Script.py_repr Script.cdb_with_lib
               (Script.fresh [Exited 0 "[{}]" ""])
               (snd (Script.get_book 1 (Script.fresh [Exited 0 "[{}]" ""])))
               1 Book_unset (Some Script.book_authors_tags) "/" "tmp/m.opf"
               _ eq_refl) eq_refl).
  lia.
Defined.

Lemma set_metadata_reports_success_witness :
  fst (Script.set_metadata 1 (Some Script.book_authors_tags) None
         (Script.fresh [Exited 0 "[{}]" ""; Exited 0 "anything" "at all"]))
  = Return 1%Z.
Proof.
  refine (set_metadata_reports_success Script.subprocess_run
            Script.path_exists Script.shlex_split Script.json_loads
            Script.Book_init Script.py_repr Script.cdb_with_lib
            (Script.fresh [Exited 0 "[{}]" ""; Exited 0 "anything" "at all"])
            (snd (Script.get_book 1
                    (Script.fresh
                       [Exited 0 "[{}]" ""; Exited 0 "anything" "at all"])))
            1 Book_unset Script.book_authors_tags _ _ "anything" "at all" []
            _ eq_refl eq_refl eq_refl eq_refl eq_refl).
  lia.
Defined.

Lemma run_waits_for_mutex_witness :
  fst (_run Script.subprocess_run Script.shlex_split "calibredb --version"
         (mkState true [] [] [Exited 0 "" ""]))
  = Blocked.
Proof.
  exact (proj1
           (run_waits_for_mutex Script.subprocess_run Script.shlex_split
              (mkState true [] [] [Exited 0 "" ""]) "calibredb --version"
              eq_refl)).
Defined.

Lemma delete_book_at_the_boundary_witness :
  fst (ScriptRest.delete_book 0 (Script.fresh [Exited 0 "" ""]))
  = Raise (rejected_id 0)
  /\ calls (snd (ScriptRest.delete_book 0 (Script.fresh [Exited 0 "" ""])))
     = [Acquire;
        Subprocess ["calibredb"; "--with-library"; "/lib"; "remove"; "0"];
        Release].
Proof.
  refine (proj2
            (delete_book_at_the_boundary Script.subprocess_run
               Script.shlex_split Script.json_loads Script.Book_init
               ScriptRest.Book_bool Script.cdb_with_lib
               (Script.fresh [Exited 0 "" ""]) 0
               ["calibredb"; "--with-library"; "/lib"; "remove"; "0"] "" ""
               [] _ eq_refl) eq_refl eq_refl eq_refl).
  lia.
Defined.

Lemma delete_book_checks_after_removing_witness :
  fst (ScriptRest.delete_book 2
         (Script.fresh [Exited 0 "" ""; Exited 0 "[]" ""]))
  = Return (response 200 "").
Proof.
  refine (proj1 (proj2
            (delete_book_checks_after_removing Script.subprocess_run
               Script.shlex_split Script.json_loads Script.Book_init
               ScriptRest.Book_bool Script.cdb_with_lib
               (Script.fresh [Exited 0 "" ""; Exited 0 "[]" ""]) 2 _ _
               "" "" "[]" "" [Exited 0 "[]" ""] [] [] _ eq_refl eq_refl
               eq_refl eq_refl eq_refl eq_refl)) eq_refl).
  lia.
Defined.

Lemma unpopulated_record_adds_nothing_witness :
  _handle_add_flags Script.py_repr "calibredb add" (Some Book_unset)
  = Ok "calibredb add".
Proof.
  exact (proj1
           (unpopulated_record_adds_nothing Script.py_repr Book_unset
              "calibredb add" (fun _ => eq_refl))).
Defined.
